(** * Picus token helper: a shallow embedding of [scripts/picus-token-helper.py]

    The script keeps a refresh token, an access token and an expiry in a
    [PicusTokenHelper] object, reads and writes them as a JSON document on
    disk, exchanges the refresh token for an access token over HTTP and
    probes the API with it.

    The embedding follows the script method by method.  The object, the file
    system, the console and standard input are threaded through a small
    state-and-exception monad; the clock, the [datetime] library, the
    outcome of file writes and the remote server are read from an
    environment record.  Values that come out of [json.load] or
    [response.json()] are untyped in Python, so the fields of the object hold
    arbitrary JSON values and every [if x:] is Python truthiness.

    Conventions of the model:
    - a file is what [json.load] makes of it: a document, text that does
      not parse, or something that cannot be read; [json.dump] followed by
      [json.load] gives the document back;
    - the clock stands still during one run;
    - [datetime] and [requests] are libraries outside the script: the
      arithmetic of the former is left to the environment, and of the
      latter [raise_for_status] raises exactly for the codes 400 to 599;
    - strings are byte strings, which agrees with Python on ASCII text. *)

From Stdlib Require Import ZArith String Ascii SpecFloat.
From stdpp Require Import base option list strings gmap.

Local Set Warnings "-register-all".
Local Open Scope string_scope.
Local Open Scope Z_scope.

(** ** JSON values as Python sees them *)

Module Json.

(** What [json.load] produces: [None], [bool], [int], [float], [str],
    [list] and [dict] with string keys.  A dict keeps insertion order, so
    it is an association list with distinct keys. *)
Inductive json : Type :=
| JNull
| JBool (b : bool)
| JInt (z : Z)
| JFloat (f : spec_float)
| JStr (s : string)
| JList (l : list json)
| JObj (kvs : list (string * json)).

(** [bool(v)]: [None], [False], zero, and the empty string, list and
    dict are false; everything else (NaN included) is true. *)
Definition truthy (v : json) : bool :=
  match v with
  | JNull => false
  | JBool b => b
  | JInt z => negb (z =? 0)
  | JFloat (S754_zero _) => false
  | JFloat _ => true
  | JStr s => negb (String.eqb s "")
  | JList l => match l with [] => false | _ => true end
  | JObj kvs => match kvs with [] => false | _ => true end
  end.

(** [v == s] for a string literal [s]: only an equal [str] compares
    equal. *)
Definition eq_str (v : json) (s : string) : bool :=
  match v with
  | JStr t => String.eqb t s
  | _ => false
  end.

(** [bool] is a subclass of [int]; these are the values arithmetic and
    ordering accept as integers. *)
Definition as_int (v : json) : option Z :=
  match v with
  | JInt z => Some z
  | JBool b => Some (if b then 1 else 0)
  | _ => None
  end.

Definition is_number (v : json) : bool :=
  match v with
  | JInt _ | JBool _ | JFloat _ => true
  | _ => false
  end.

(** [f > n] for a float [f] and an int [n]; Python compares the two
    exactly, and every comparison with NaN is false. *)
Definition float_gt_int (f : spec_float) (n : Z) : bool :=
  match f with
  | S754_zero _ => n <? 0
  | S754_infinity s => negb s
  | S754_nan => false
  | S754_finite s m e =>
      let sm := if s then Z.neg m else Z.pos m in
      if 0 <=? e then n <? sm * 2 ^ e
      else n * 2 ^ (- e) <? sm
  end.

(** Lookup in an association list, first binding. *)
Fixpoint find_key (k : string) (kvs : list (string * json)) : option json :=
  match kvs with
  | [] => None
  | (k', v) :: rest => if String.eqb k k' then Some v else find_key k rest
  end.

(** [d[k] = v]: replace the value in place, or append a new key. *)
Fixpoint set_item (k : string) (v : json) (kvs : list (string * json))
  : list (string * json) :=
  match kvs with
  | [] => [(k, v)]
  | (k', v') :: rest =>
      if String.eqb k k' then (k, v) :: rest
      else (k', v') :: set_item k v rest
  end.

(** [d.get(k)] for a dict [d]: the value, or [None]. *)
Definition get (kvs : list (string * json)) (k : string) : json :=
  default JNull (find_key k kvs).

(** [d.get(k, dflt)]. *)
Definition get_default (kvs : list (string * json)) (k : string)
    (dflt : json) : json :=
  default dflt (find_key k kvs).

(** [v[:n]]: defined on strings and lists only.  (Strings are byte
    strings here; Python counts code points, which is the same on
    ASCII text.) *)
Definition slice_prefix (n : nat) (v : json) : option json :=
  match v with
  | JStr s => Some (JStr (String.substring 0 n s))
  | JList l => Some (JList (take n l))
  | _ => None
  end.

(** [len(v)]: defined on strings, lists and dicts. *)
Definition len (v : json) : option Z :=
  match v with
  | JStr s => Some (Z.of_nat (String.length s))
  | JList l => Some (Z.of_nat (List.length l))
  | JObj kvs => Some (Z.of_nat (List.length kvs))
  | _ => None
  end.

End Json.
Export Json.

(** ** The world around the script *)

(** What a path names, as [load_tokens] can tell the cases apart:
    something [open] or [read] fails on (a directory, a file without read
    permission), text [json.load] rejects, or a JSON document. *)
Inductive node : Type :=
| Unreadable
| Malformed
| Document (v : json).

(** [open(path, 'w')] followed by [json.dump]: the write goes through, or
    [open] raises and the file is untouched, or the file was truncated and
    the write raises before the document is complete. *)
Inductive write_outcome : Type :=
| WriteOk
| OpenFails
| DumpFails.

Record response : Type := Response {
  status_code : Z;
  text : string;
  (** [response.json()]: the parsed body, or [None] when parsing raises. *)
  body_json : option json
}.

(** [requests.post] and [requests.get] with [timeout=30]: the exception
    raised, or the response received. *)
Inductive net_result : Type :=
| NetTimeout
| NetConnectionError
| NetOtherError
| NetResponse (r : response).

(** The parts of the world the script only reads. *)
Record Env : Type := {
  (** [time.time()] in whole milliseconds. *)
  clock_ms : Z;
  (** [datetime.now().isoformat()]. *)
  now_iso : string;
  (** Lines 54-56 of [load_tokens] on a numeric [stored_timestamp]: the age
      in whole days, or [None] when [datetime.fromtimestamp] raises. *)
  token_age_days : json -> option Z;
  (** Whether [datetime.fromtimestamp(v)] returns for a numeric [v]. *)
  fromtimestamp_ok : json -> bool;
  open_write : string -> write_outcome;
  chmod_ok : string -> bool;
  (** The server: [POST url] with JSON body [{"refresh_token": v}], and
      [GET url] with the bearer token [v]. *)
  http_post : string -> json -> net_result;
  http_get : string -> json -> net_result
}.

(** [int(time.time())]: truncation of the clock to whole seconds. *)
Definition time_s (E : Env) : Z := Z.quot (clock_ms E) 1000.

(** [int(time.time() * 1000)]. *)
Definition time_ms (E : Env) : Z := clock_ms E.

(** ** Console output and other observable actions *)

(** One constructor per [print] statement of the script, carrying the values
    its f-string interpolates. *)
Inductive message : Type :=
(* load_tokens *)
| MsgTokenFileNotFound (path : string)
| MsgNoRefreshTokenInFile
| MsgUpdateRefreshToken
| MsgLoadedRefreshToken (age_days : Z)
| MsgOlderThanSixMonths
| MsgNoTimestamp
| MsgErrorLoading
(* save_tokens *)
| MsgSavedSecure (path : string)
| MsgSavedNoPermissions (path : string)
| MsgErrorSaving
(* create_example_token_file *)
| MsgExampleCreated (path : string)
| MsgUpdateWithRealToken
| MsgErrorCreating
(* authenticate *)
| MsgNoRefreshTokenAvailable
| MsgAuthenticating (url : string)
| MsgAuthSuccessful
| MsgAccessTokenPrefix (prefix : json)
| MsgExpires (expire_at : json)
| MsgExpiresInOneHour
| MsgNoAccessTokenReceived
| MsgRequestTimeout
| MsgConnectionError
| MsgHttpError
| MsgStatus (code : Z)
| MsgResponse (body : string)
| MsgAuthenticationError
(* test_api_connection *)
| MsgNoAccessTokenForTesting
| MsgTestingConnection (url : string)
| MsgApiTestSuccessful
| MsgFoundAgents (count : Z)
| MsgApiTestFailed (code : Z)
| MsgTokenMayBeExpired
| MsgInsufficientPermissions
| MsgApiTestError
(* get_token_status *)
| MsgBlankAndRule
| MsgRule
| MsgTitleTokenStatus
| MsgRefreshPlaceholder
| MsgRefreshSet
| MsgRefreshNotSet
| MsgAccessValid (minutes : Z)
| MsgAccessValidFloat (expires : spec_float) (now : Z)
| MsgAccessExpired
| MsgAccessNotSet
| MsgBaseUrl (url : string)
| MsgTokenFile (path : string)
(* interactive_setup *)
| MsgTitleSetupWizard
| MsgStep1
| MsgCurrentBaseUrl (url : string)
| MsgStep2
| MsgStep2Help (line : nat)
| MsgNoTokenProvided
| MsgStep3
| MsgStep4
| MsgSetupCompleted
| MsgThreatFlowReady
| MsgAuthWorkedApiFailed
| MsgPermissionsOrNetwork
| MsgSetupFailed
(* main *)
| MsgHintCreateExample
| MsgTestingIntegration
| MsgTestingAuthentication.

(** The two questions of the setup wizard. *)
Inductive prompt : Type := PromptUrl | PromptToken.

Inductive event : Type :=
| Print (m : message)
(** [input(prompt)] writes its prompt. *)
| Prompt (p : prompt)
| HttpPost (url : string) (refresh : json)
| HttpGet (url : string) (bearer : json)
| FileWrite (path : string)
| Chmod (path : string).

Definition is_network (ev : event) : bool :=
  match ev with
  | HttpPost _ _ | HttpGet _ _ => true
  | _ => false
  end.

Definition is_file_write (ev : event) : bool :=
  match ev with
  | FileWrite _ => true
  | _ => false
  end.

(** ** The object and the machine *)

(** The attributes of a [PicusTokenHelper] instance. *)
Record PicusTokenHelper : Type := Helper {
  base_url : string;
  token_file : string;
  refresh_token : json;
  access_token : json;
  token_expires_at : json
}.

(** Everything the script can change: the object, the files, the unread part
    of standard input, and what has been printed and done so far (oldest
    first). *)
Record machine : Type := Machine {
  self : PicusTokenHelper;
  fs : gmap string node;
  stdin : list string;
  trace : list event
}.

(** The exception classes the handlers of the script tell apart; every
    other exception ([TypeError], [AttributeError], [OSError], a JSON decode
    error, [EOFError], ...) is an [Exception]. *)
Inductive exn : Type :=
| Timeout
| ConnectionError
| HTTPError (r : response)
| Exception.

Inductive outcome (A : Type) : Type :=
| Return (a : A)
| Raise (e : exn).
Arguments Return {A} a.
Arguments Raise {A} e.

(** ** A state-and-exception monad *)

Definition M (A : Type) : Type := machine -> outcome A * machine.

#[global] Instance M_ret : MRet M := fun A a m => (Return a, m).

#[global] Instance M_bind : MBind M := fun A B k c m =>
  match c m with
  | (Return a, m') => k a m'
  | (Raise e, m') => (Raise e, m')
  end.

Definition raise {A : Type} (e : exn) : M A := fun m => (Raise e, m).

(** [try: body / except Exception as e: handler e]; every exception of the
    model is an [Exception], and the state changes made before the raise
    stay. *)
Definition try_except {A : Type} (body : M A) (handler : exn -> M A) : M A :=
  fun m =>
    match body m with
    | (Return a, m') => (Return a, m')
    | (Raise e, m') => handler e m'
    end.

Definition get_self : M PicusTokenHelper := fun m => (Return (self m), m).

Definition put_self (h : PicusTokenHelper) : M unit := fun m =>
  (Return tt, {| self := h; fs := fs m; stdin := stdin m; trace := trace m |}).

Definition emit (ev : event) : M unit := fun m =>
  (Return tt,
   {| self := self m; fs := fs m; stdin := stdin m;
      trace := trace m ++ [ev] |}).

Definition print (msg : message) : M unit := emit (Print msg).

Definition get_fs : M (gmap string node) := fun m => (Return (fs m), m).

Definition put_fs (f : gmap string node) : M unit := fun m =>
  (Return tt, {| self := self m; fs := f; stdin := stdin m; trace := trace m |}).

(** Attribute assignments [self.x = v]. *)
Definition set_base_url (v : string) : M unit :=
  h ← get_self;
  put_self {| base_url := v; token_file := token_file h;
              refresh_token := refresh_token h;
              access_token := access_token h;
              token_expires_at := token_expires_at h |}.

Definition set_refresh_token (v : json) : M unit :=
  h ← get_self;
  put_self {| base_url := base_url h; token_file := token_file h;
              refresh_token := v;
              access_token := access_token h;
              token_expires_at := token_expires_at h |}.

Definition set_access_token (v : json) : M unit :=
  h ← get_self;
  put_self {| base_url := base_url h; token_file := token_file h;
              refresh_token := refresh_token h;
              access_token := v;
              token_expires_at := token_expires_at h |}.

Definition set_token_expires_at (v : json) : M unit :=
  h ← get_self;
  put_self {| base_url := base_url h; token_file := token_file h;
              refresh_token := refresh_token h;
              access_token := access_token h;
              token_expires_at := v |}.

(** [x.get(k)] on a value that may not be a dict: anything else has no
    [get] attribute and raises. *)
Definition dict_get (v : json) (k : string) : M json :=
  match v with
  | JObj kvs => mret (Json.get kvs k)
  | _ => raise Exception
  end.

(** Lift a partial operation: [None] is a raised exception. *)
Definition or_raise {A : Type} (o : option A) : M A :=
  match o with
  | Some a => mret a
  | None => raise Exception
  end.

(** ** String helpers *)

Module Str.

Fixpoint lstrip (p : ascii -> bool) (s : string) : string :=
  match s with
  | String c r => if p c then lstrip p r else s
  | EmptyString => EmptyString
  end.

Fixpoint rstrip (p : ascii -> bool) (s : string) : string :=
  match s with
  | EmptyString => EmptyString
  | String c r =>
      match rstrip p r with
      | EmptyString => if p c then EmptyString else String c EmptyString
      | r' => String c r'
      end
  end.

(** The characters [str.strip()] removes, on ASCII text: tab, line feed,
    vertical tab, form feed, carriage return, the four separators
    [0x1c]-[0x1f], and space. *)
Definition is_space (c : ascii) : bool :=
  let n := N_of_ascii c in
  ((9 <=? n) && (n <=? 13) || (28 <=? n) && (n <=? 32))%N.

Definition is_slash (c : ascii) : bool := Ascii.eqb c "/"%char.

(** [s.strip()]. *)
Definition strip (s : string) : string := rstrip is_space (lstrip is_space s).

(** [s.rstrip('/')]. *)
Definition rstrip_slash (s : string) : string := rstrip is_slash s.

Definition nonempty (s : string) : bool := negb (String.eqb s "").

End Str.

(** ** Primitive actions *)

Definition placeholder : string := "your_refresh_token_here".

(** [os.path.exists(path)]. *)
Definition path_exists (path : string) : M bool :=
  f ← get_fs; mret (bool_decide (is_Some (f !! path))).

(** [with open(path, 'r') as f: json.load(f)]. *)
Definition json_load (path : string) : M json :=
  f ← get_fs;
  match f !! path with
  | Some (Document v) => mret v
  | _ => raise Exception
  end.

(** [with open(path, 'w') as f: json.dump(doc, f, indent=2)]. *)
Definition json_dump (E : Env) (path : string) (doc : json) : M unit :=
  emit (FileWrite path);;
  match open_write E path with
  | OpenFails => raise Exception
  | DumpFails => f ← get_fs; put_fs (<[path := Malformed]> f);; raise Exception
  | WriteOk => f ← get_fs; put_fs (<[path := Document doc]> f)
  end.

(** [os.chmod(path, 0o600)]. *)
Definition chmod (E : Env) (path : string) : M unit :=
  emit (Chmod path);;
  if chmod_ok E path then mret tt else raise Exception.

Definition of_net_result (r : net_result) : M response :=
  match r with
  | NetTimeout => raise Timeout
  | NetConnectionError => raise ConnectionError
  | NetOtherError => raise Exception
  | NetResponse resp => mret resp
  end.

(** [requests.post(url, json={"refresh_token": v}, timeout=30)]. *)
Definition requests_post (E : Env) (url : string) (v : json) : M response :=
  emit (HttpPost url v);; of_net_result (http_post E url v).

(** [requests.get(url, headers={"Authorization": f"Bearer {v}"}, timeout=30)]. *)
Definition requests_get (E : Env) (url : string) (v : json) : M response :=
  emit (HttpGet url v);; of_net_result (http_get E url v).

(** [response.raise_for_status()]: client errors 400-499 and server errors
    500-599 raise [HTTPError]; every other status code passes. *)
Definition is_http_error (code : Z) : bool := (400 <=? code) && (code <? 600).

Definition raise_for_status (r : response) : M unit :=
  if is_http_error (status_code r) then raise (HTTPError r) else mret tt.

(** [datetime.fromtimestamp(v)], for its exceptions only. *)
Definition fromtimestamp (E : Env) (v : json) : M unit :=
  if is_number v && fromtimestamp_ok E v then mret tt else raise Exception.

(** Lines 54-56: [stored_timestamp / 1000] raises on anything that is not a
    number; on numbers the age is the environment's. *)
Definition age_in_days (E : Env) (stored_timestamp : json) : M Z :=
  if is_number stored_timestamp then or_raise (token_age_days E stored_timestamp)
  else raise Exception.

(** The next line of standard input, [EOFError] at its end. *)
Definition read_line : M string := fun m =>
  match stdin m with
  | [] => (Raise Exception, m)
  | line :: rest =>
      (Return line,
       {| self := self m; fs := fs m; stdin := rest; trace := trace m |})
  end.

(** [input(prompt)]. *)
Definition input (p : prompt) : M string := emit (Prompt p);; read_line.

(** ** The methods of [PicusTokenHelper] *)

(** The attributes [__init__(base_url, token_file)] sets. *)
Definition new_helper (url file : string) : PicusTokenHelper :=
  {| base_url := Str.rstrip_slash url;
     token_file := file;
     refresh_token := JNull;
     access_token := JNull;
     token_expires_at := JInt 0 |}.

(** [helper = PicusTokenHelper(base_url, token_file)]. *)
Definition init (url file : string) : M unit := put_self (new_helper url file).

(** [load_tokens()]. *)
Definition load_tokens (E : Env) : M bool :=
  h ← get_self;
  found ← path_exists (token_file h);
  if negb found then
    print (MsgTokenFileNotFound (token_file h));; mret false
  else
    try_except
      (token_data ← json_load (token_file h);
       rt ← dict_get token_data "refresh_token";
       set_refresh_token rt;;
       at_ ← dict_get token_data "access_token";
       set_access_token at_;;
       stored_timestamp ← dict_get token_data "timestamp";
       if negb (truthy rt) then
         print MsgNoRefreshTokenInFile;; mret false
       else if eq_str rt placeholder then
         print MsgUpdateRefreshToken;; mret false
       else if truthy stored_timestamp then
         age_days ← age_in_days E stored_timestamp;
         print (MsgLoadedRefreshToken age_days);;
         (if 180 <? age_days then print MsgOlderThanSixMonths else mret tt);;
         mret true
       else
         print MsgNoTimestamp;; mret true)
      (fun _ => print MsgErrorLoading;; mret false).

(** The dict [save_tokens] builds before writing. *)
Definition token_data_of (E : Env) (refresh access expires : json)
  : list (string * json) :=
  let token_data :=
    [("refresh_token", refresh);
     ("timestamp", JInt (time_ms E));
     ("created_at", JStr (now_iso E))] in
  let token_data :=
    if truthy access then set_item "access_token" access token_data
    else token_data in
  if truthy expires then set_item "expires_at" expires token_data
  else token_data.

(** [save_tokens(refresh_token, access_token, expires_at)]; the defaults of
    the last two parameters are [None], that is [JNull]. *)
Definition save_tokens (E : Env) (refresh access expires : json) : M unit :=
  h ← get_self;
  let token_data := token_data_of E refresh access expires in
  try_except
    (json_dump E (token_file h) (JObj token_data);;
     try_except
       (chmod E (token_file h);;
        print (MsgSavedSecure (token_file h)))
       (fun _ => print (MsgSavedNoPermissions (token_file h))))
    (fun _ => print MsgErrorSaving).

Definition example_instructions : json :=
  JList
    [JStr "Replace your_refresh_token_here with your actual Picus refresh token";
     JStr "Get your token from Picus Security Console > API Settings";
     JStr "This file will be automatically updated with access tokens"].

(** [create_example_token_file()]. *)
Definition create_example_token_file (E : Env) : M unit :=
  h ← get_self;
  let token_data :=
    [("refresh_token", JStr placeholder);
     ("timestamp", JInt (time_ms E));
     ("created_at", JStr (now_iso E));
     ("_instructions", example_instructions)] in
  try_except
    (json_dump E (token_file h) (JObj token_data);;
     print (MsgExampleCreated (token_file h));;
     print MsgUpdateWithRealToken)
    (fun _ => print MsgErrorCreating).

(** The two success reports of [authenticate] (lines 141-144 and
    147-149); slicing the access token is what can raise in them. *)
Definition report_success (token : json) (expiry_line : message) : M unit :=
  print MsgAuthSuccessful;;
  prefix ← or_raise (slice_prefix 20 token);
  print (MsgAccessTokenPrefix prefix);;
  print expiry_line.

(** [authenticate()]. *)
Definition authenticate (E : Env) : M bool :=
  h ← get_self;
  if negb (truthy (refresh_token h)) then
    print MsgNoRefreshTokenAvailable;; mret false
  else
    let auth_url := base_url h +:+ "/v1/auth/token" in
    try_except
      (print (MsgAuthenticating auth_url);;
       resp ← requests_post E auth_url (refresh_token h);
       raise_for_status resp;;
       data ← or_raise (body_json resp);
       token ← dict_get data "token";
       set_access_token token;;
       expire_at ← dict_get data "expire_at";
       if truthy token then
         (if truthy expire_at then
            set_token_expires_at expire_at;;
            fromtimestamp E expire_at;;
            report_success token (MsgExpires expire_at)
          else
            set_token_expires_at (JInt (time_s E + 3600));;
            report_success token MsgExpiresInOneHour);;
         h' ← get_self;
         save_tokens E (refresh_token h') (access_token h')
           (token_expires_at h');;
         mret true
       else
         print MsgNoAccessTokenReceived;; mret false)
      (fun e =>
         match e with
         | Timeout => print MsgRequestTimeout;; mret false
         | ConnectionError => print MsgConnectionError;; mret false
         | HTTPError r =>
             print MsgHttpError;;
             print (MsgStatus (status_code r));;
             print (MsgResponse (text r));;
             mret false
         | Exception => print MsgAuthenticationError;; mret false
         end).

(** [test_api_connection()]. *)
Definition test_api_connection (E : Env) : M bool :=
  h ← get_self;
  if negb (truthy (access_token h)) then
    print MsgNoAccessTokenForTesting;; mret false
  else
    let test_url := base_url h +:+ "/v1/agents" in
    try_except
      (print (MsgTestingConnection test_url);;
       resp ← requests_get E test_url (access_token h);
       raise_for_status resp;;
       data ← or_raise (body_json resp);
       items ← match data with
               | JObj kvs => mret (get_default kvs "data" (JList []))
               | _ => raise Exception
               end;
       agent_count ← or_raise (len items);
       print MsgApiTestSuccessful;;
       print (MsgFoundAgents agent_count);;
       mret true)
      (fun e =>
         match e with
         | HTTPError r =>
             print (MsgApiTestFailed (status_code r));;
             (if status_code r =? 401 then print MsgTokenMayBeExpired
              else if status_code r =? 403 then print MsgInsufficientPermissions
              else mret tt);;
             mret false
         | _ => print MsgApiTestError;; mret false
         end).

(** Lines 219-223: the comparison [token_expires_at > current_time] and the
    line it selects.  Ordering a string, list, dict or [None] against an
    int raises [TypeError]. *)
Definition report_access_token (expires : json) (current_time : Z) : M unit :=
  match expires with
  | JFloat f =>
      if float_gt_int f current_time
      then print (MsgAccessValidFloat f current_time)
      else print MsgAccessExpired
  | v =>
      match as_int v with
      | Some e =>
          if current_time <? e
          then print (MsgAccessValid ((e - current_time) / 60))
          else print MsgAccessExpired
      | None => raise Exception
      end
  end.

(** [get_token_status()]. *)
Definition get_token_status (E : Env) : M unit :=
  print MsgBlankAndRule;;
  print MsgTitleTokenStatus;;
  print MsgRule;;
  h ← get_self;
  (if truthy (refresh_token h) then
     if eq_str (refresh_token h) placeholder
     then print MsgRefreshPlaceholder
     else print MsgRefreshSet
   else print MsgRefreshNotSet);;
  (if truthy (access_token h) then
     report_access_token (token_expires_at h) (time_s E)
   else print MsgAccessNotSet);;
  print (MsgBaseUrl (base_url h));;
  print (MsgTokenFile (token_file h)).

(** [interactive_setup()]. *)
Definition interactive_setup (E : Env) : M bool :=
  print MsgBlankAndRule;;
  print MsgTitleSetupWizard;;
  print MsgRule;;
  print MsgStep1;;
  h ← get_self;
  print (MsgCurrentBaseUrl (base_url h));;
  line ← input PromptUrl;
  let new_url := Str.strip line in
  (if Str.nonempty new_url then set_base_url (Str.rstrip_slash new_url)
   else mret tt);;
  print MsgStep2;;
  print (MsgStep2Help 0);;
  print (MsgStep2Help 1);;
  print (MsgStep2Help 2);;
  print (MsgStep2Help 3);;
  line ← input PromptToken;
  let token := Str.strip line in
  if negb (Str.nonempty token) then
    print MsgNoTokenProvided;; mret false
  else
    set_refresh_token (JStr token);;
    print MsgStep3;;
    authenticated ← authenticate E;
    if (authenticated : bool) then
      print MsgStep4;;
      connected ← test_api_connection E;
      if (connected : bool) then
        print MsgSetupCompleted;; print MsgThreatFlowReady;; mret true
      else
        print MsgAuthWorkedApiFailed;; print MsgPermissionsOrNetwork;; mret true
    else
      print MsgSetupFailed;; mret false.

(** ** The command line *)

(** What [argparse] hands to [main]. *)
Record arguments : Type := Arguments_ {
  arg_base_url : string;
  arg_token_file : string;
  arg_setup : bool;
  arg_test : bool;
  arg_status : bool;
  arg_create_example : bool
}.

(** Lines 313-314 and 322-323. *)
Definition authenticate_then_test (E : Env) : M unit :=
  authenticated ← authenticate E;
  if (authenticated : bool) then test_api_connection E;; mret tt else mret tt.

(** [main()], after argument parsing. *)
Definition main (E : Env) (args : arguments) : M unit :=
  init (arg_base_url args) (arg_token_file args);;
  if arg_create_example args then create_example_token_file E
  else if arg_setup args then interactive_setup E;; mret tt
  else
    loaded ← load_tokens E;
    if negb loaded then print MsgHintCreateExample
    else if arg_status args then get_token_status E
    else if arg_test args then
      print MsgTestingIntegration;; authenticate_then_test E
    else
      get_token_status E;;
      h ← get_self;
      if truthy (refresh_token h) && negb (eq_str (refresh_token h) placeholder)
      then print MsgTestingAuthentication;; authenticate_then_test E
      else mret tt.

(** The machine a process starts with: the object does not exist yet
    ([init] sets every attribute), nothing has been printed. *)
Definition boot (files : gmap string node) (lines : list string) : machine :=
  {| self := Helper "" "" JNull JNull (JInt 0);
     fs := files; stdin := lines; trace := [] |}.

(** ** Vocabulary of the specifications *)

(** The machine [m] after the events [evs] have been added to its trace and
    nothing else has changed. *)
Definition after (m : machine) (evs : list event) : machine :=
  {| self := self m; fs := fs m; stdin := stdin m; trace := trace m ++ evs |}.

(** The machine [m] with its object replaced by [h]. *)
Definition with_self (m : machine) (h : PicusTokenHelper) : machine :=
  {| self := h; fs := fs m; stdin := stdin m; trace := trace m |}.

(** The object [h] after [load_tokens] has read [rt] and [at_] into it. *)
Definition loaded (h : PicusTokenHelper) (rt at_ : json) : PicusTokenHelper :=
  {| base_url := base_url h; token_file := token_file h;
     refresh_token := rt; access_token := at_;
     token_expires_at := token_expires_at h |}.

Definition has_key (k : string) (kvs : list (string * json)) : bool :=
  match find_key k kvs with
  | Some _ => true
  | None => false
  end.

(** A record holds [access_token] and [expires_at] both or neither. *)
Definition written_together (kvs : list (string * json)) : Prop :=
  has_key "access_token" kvs = has_key "expires_at" kvs.

(** The message with which [load_tokens] turns down a refresh token that is
    missing (line 45) or the placeholder (line 49). *)
Definition rejection (rt : json) : message :=
  if truthy rt then MsgUpdateRefreshToken else MsgNoRefreshTokenInFile.

(** The refresh-token line of the status report (lines 211-215). *)
Definition refresh_line (rt : json) : message :=
  if truthy rt then
    if eq_str rt placeholder then MsgRefreshPlaceholder else MsgRefreshSet
  else MsgRefreshNotSet.

(** The status report around its access-token line. *)
Definition status_report (h : PicusTokenHelper) (access_line : message)
  : list event :=
  [Print MsgBlankAndRule; Print MsgTitleTokenStatus; Print MsgRule;
   Print (refresh_line (refresh_token h));
   Print access_line;
   Print (MsgBaseUrl (base_url h)); Print (MsgTokenFile (token_file h))].

(** The events new in [m'] with respect to an earlier machine [m]. *)
Definition events_since (m m' : machine) : list event :=
  drop (length (trace m)) (trace m').

(** A status code of the 2xx class. *)
Definition is_2xx (code : Z) : bool := (200 <=? code) && (code <? 300).

(** ** Sample worlds *)

Module Sample.

Definition url : string := "https://api.picussecurity.com".
Definition file : string := "picus-tokens.json".

(** A world at a fixed instant whose server answers every [POST] with
    [post] and every [GET] with [get_], and whose writes end in [w]. *)
Definition env (post get_ : net_result) (w : write_outcome) : Env :=
  {| clock_ms := 1700000000123;
     now_iso := "2023-11-14T22:13:20.123000";
     token_age_days := fun _ => Some 3;
     fromtimestamp_ok := fun _ => true;
     open_write := fun _ => w;
     chmod_ok := fun _ => true;
     http_post := fun _ _ => post;
     http_get := fun _ _ => get_ |}.

Definition ok (body : json) : net_result :=
  NetResponse (Response 200 "" (Some body)).

Definition agents : net_result := ok (JObj [("data", JList [])]).

(** A server that hands out the token AT1 without an expiry. *)
Definition token_only : net_result := ok (JObj [("token", JStr "AT1")]).

Definition quiet : Env := env token_only agents WriteOk.

(** A freshly constructed helper over the files [files]. *)
Definition start (files : gmap string node) : machine :=
  {| self := new_helper url file; fs := files; stdin := []; trace := [] |}.

Definition record (kvs : list (string * json)) : gmap string node :=
  {[ file := Document (JObj kvs) ]}.

Definition arguments_default : arguments :=
  {| arg_base_url := url; arg_token_file := file; arg_setup := false;
     arg_test := false; arg_status := false; arg_create_example := false |}.

End Sample.

(** What [save_tokens] leaves behind when it is asked to write [doc] to the
    token file of [m]: the machine after the three possible ends of the
    write. *)
Definition saved (E : Env) (m : machine) (doc : json) : machine :=
  let path := token_file (self m) in
  match open_write E path with
  | WriteOk =>
      {| self := self m;
         fs := <[path := Document doc]> (fs m);
         stdin := stdin m;
         trace := trace m ++
           [FileWrite path; Chmod path;
            Print (if chmod_ok E path then MsgSavedSecure path
                   else MsgSavedNoPermissions path)] |}
  | OpenFails => after m [FileWrite path; Print MsgErrorSaving]
  | DumpFails =>
      {| self := self m;
         fs := <[path := Malformed]> (fs m);
         stdin := stdin m;
         trace := trace m ++ [FileWrite path; Print MsgErrorSaving] |}
  end.

(** The object [h] with its expiry set to the integer [e]. *)
Definition expiring (h : PicusTokenHelper) (e : Z) : PicusTokenHelper :=
  {| base_url := base_url h; token_file := token_file h;
     refresh_token := refresh_token h; access_token := access_token h;
     token_expires_at := JInt e |}.

(** The URL [authenticate] posts to. *)
Definition auth_url (m : machine) : string :=
  base_url (self m) +:+ "/v1/auth/token".

(** [authenticate] turns the response [r] down: it returns [False] after
    reporting the status code and the body, and leaves the object and the
    files as they were. *)
Definition rejects (E : Env) (m : machine) (r : response) : Prop :=
  authenticate E m =
    (Return false,
     after m
       [Print (MsgAuthenticating (auth_url m));
        HttpPost (auth_url m) (refresh_token (self m));
        Print MsgHttpError;
        Print (MsgStatus (status_code r));
        Print (MsgResponse (text r))]).

(** The object after [authenticate] has taken [token] from a response that
    gives no expiry. *)
Definition authenticated_by_default
    (E : Env) (h : PicusTokenHelper) (token : json) : PicusTokenHelper :=
  expiring (loaded h (refresh_token h) token) (time_s E + 3600).

(** A string of [n] slashes. *)
Fixpoint slashes (n : nat) : string :=
  match n with
  | O => ""
  | S n' => String "/" (slashes n')
  end.

(** What [requests.post] and [requests.get] make of the answer of the
    network. *)
Definition net_outcome (r : net_result) : outcome response :=
  match r with
  | NetTimeout => Raise Timeout
  | NetConnectionError => Raise ConnectionError
  | NetOtherError => Raise Exception
  | NetResponse resp => Return resp
  end.

(** The requests among the events [evs], in order. *)
Definition requests (evs : list event) : list event :=
  List.filter is_network evs.

(** The object [h] holding the access token [token] and the expiry
    [expiry]. *)
Definition holding (h : PicusTokenHelper) (token expiry : json)
  : PicusTokenHelper :=
  {| base_url := base_url h; token_file := token_file h;
     refresh_token := refresh_token h; access_token := token;
     token_expires_at := expiry |}.

(** The world [E] with other outcomes for writes and [chmod]. *)
Definition with_writes (E : Env) (w : string -> write_outcome)
    (c : string -> bool) : Env :=
  {| clock_ms := clock_ms E; now_iso := now_iso E;
     token_age_days := token_age_days E;
     fromtimestamp_ok := fromtimestamp_ok E;
     open_write := w; chmod_ok := c;
     http_post := http_post E; http_get := http_get E |}.

(** The machine right after [authenticate] has sent its request. *)
Definition posted (m : machine) : machine :=
  after m [Print (MsgAuthenticating (auth_url m));
           HttpPost (auth_url m) (refresh_token (self m))].

(** The expiry [authenticate] adopts for the [expire_at] of a response. *)
Definition adopted_expiry (E : Env) (expire_at : json) : json :=
  if truthy expire_at then expire_at else JInt (time_s E + 3600).

(** Whether lines 139-141 get past [datetime.fromtimestamp]. *)
Definition expiry_accepted (E : Env) (expire_at : json) : bool :=
  negb (truthy expire_at) || (is_number expire_at && fromtimestamp_ok E expire_at).

(** The file writes among the events [evs], in order. *)
Definition writes (evs : list event) : list event :=
  List.filter is_file_write evs.

(** The URL [test_api_connection] reads. *)
Definition agents_url (m : machine) : string :=
  base_url (self m) +:+ "/v1/agents".

(** The machine right after [test_api_connection] has sent its request. *)
Definition probed (m : machine) : machine :=
  after m [Print (MsgTestingConnection (agents_url m));
           HttpGet (agents_url m) (access_token (self m))].

(** The hint [test_api_connection] adds for a status code, if any. *)
Definition status_hint (code : Z) : list event :=
  if code =? 401 then [Print MsgTokenMayBeExpired]
  else if code =? 403 then [Print MsgInsufficientPermissions]
  else [].

(** The access-token line of the status report, or [None] where the
    comparison of line 219 raises. *)
Definition access_report (h : PicusTokenHelper) (now : Z) : option message :=
  if truthy (access_token h) then
    match token_expires_at h with
    | JFloat f =>
        Some (if float_gt_int f now then MsgAccessValidFloat f now
              else MsgAccessExpired)
    | v =>
        match as_int v with
        | Some e =>
            Some (if now <? e then MsgAccessValid ((e - now) / 60)
                  else MsgAccessExpired)
        | None => None
        end
    end
  else Some MsgAccessNotSet.

(** What the status report has printed when it reaches the access token. *)
Definition status_preamble (h : PicusTokenHelper) : list message :=
  [MsgBlankAndRule; MsgTitleTokenStatus; MsgRule;
   refresh_line (refresh_token h)].

(** The base URL after the first answer to the wizard. *)
Definition wizard_base_url (h : PicusTokenHelper) (answer : string) : string :=
  if Str.nonempty (Str.strip answer) then Str.rstrip_slash (Str.strip answer)
  else base_url h.

(** What the wizard prints and asks up to its second question. *)
Definition wizard_questions (h : PicusTokenHelper) : list event :=
  [Print MsgBlankAndRule; Print MsgTitleSetupWizard; Print MsgRule;
   Print MsgStep1; Print (MsgCurrentBaseUrl (base_url h)); Prompt PromptUrl;
   Print MsgStep2; Print (MsgStep2Help 0); Print (MsgStep2Help 1);
   Print (MsgStep2Help 2); Print (MsgStep2Help 3); Prompt PromptToken].

(** The machine on which the wizard calls [authenticate], after the
    answers [url_answer] and [token_answer]. *)
Definition wizard_ready (m : machine) (url_answer token_answer : string)
    (rest : list string) : machine :=
  {| self :=
       {| base_url := wizard_base_url (self m) url_answer;
          token_file := token_file (self m);
          refresh_token := JStr (Str.strip token_answer);
          access_token := access_token (self m);
          token_expires_at := token_expires_at (self m) |};
     fs := fs m;
     stdin := rest;
     trace := trace m ++ wizard_questions (self m) ++ [Print MsgStep3] |}.

(** Two machines that differ at most in their traces. *)
Definition same_state (m1 m2 : machine) : Prop :=
  self m1 = self m2 /\ fs m1 = fs m2 /\ stdin m1 = stdin m2.

(** The machine on which [main] starts its work, once [init] has run. *)
Definition started (args : arguments) (files : gmap string node)
    (lines : list string) : machine :=
  {| self := new_helper (arg_base_url args) (arg_token_file args);
     fs := files; stdin := lines; trace := [] |}.

(** * Properties *)

(** ** Symbolic execution *)

Ltac unfold_monad :=
  unfold mbind, M_bind, mret, M_ret, try_except, raise, print, emit,
    get_self, put_self, get_fs, put_fs in *.

Ltac unfold_attrs :=
  unfold set_base_url, set_refresh_token, set_access_token,
    set_token_expires_at, dict_get, or_raise in *.

Ltac run :=
  cbn -[Json.get truthy eq_str find_key String.append Z.add Z.quot Z.ltb
        Z.sub Z.div Z.eqb is_number slice_prefix insert lookup
        path_exists json_load json_dump chmod requests_post requests_get
        load_tokens save_tokens authenticate test_api_connection
        get_token_status interactive_setup create_example_token_file
        is_http_error token_data_of time_s time_ms].

Lemma after_after (m : machine) (evs evs' : list event) :
  after (after m evs) evs' = after m (evs ++ evs').
Proof. unfold after; simpl. by rewrite <- app_assoc. Qed.

Lemma events_since_after (m m' : machine) (evs : list event) :
  trace m' = trace m -> events_since m (after m' evs) = evs.
Proof.
  intros H. unfold events_since, after. simpl. rewrite H.
  apply drop_app_length.
Qed.

Lemma path_exists_found (m : machine) (p : string) (n : node) :
  fs m !! p = Some n -> path_exists p m = (Return true, m).
Proof. intros H. unfold path_exists. unfold_monad. by rewrite H. Qed.

Lemma path_exists_missing (m : machine) (p : string) :
  fs m !! p = None -> path_exists p m = (Return false, m).
Proof. intros H. unfold path_exists. unfold_monad. by rewrite H. Qed.

Lemma json_load_document (m : machine) (p : string) (v : json) :
  fs m !! p = Some (Document v) -> json_load p m = (Return v, m).
Proof. intros H. unfold json_load. unfold_monad. by rewrite H. Qed.

Lemma json_load_raises (m : machine) (p : string) :
  (forall v, fs m !! p <> Some (Document v)) ->
  json_load p m = (Raise Exception, m).
Proof.
  intros H. unfold json_load. unfold_monad.
  destruct (fs m !! p) as [[| |v]|] eqn:Hp; try done. by destruct (H v).
Qed.

(** ** The model at work *)

Example rstrip_slash_removes_every_trailing_slash :
  Str.rstrip_slash "https://api.picussecurity.com//" = Sample.url.
Proof. reflexivity. Qed.

Example strip_keeps_inner_spaces :
  Str.strip "  my token  " = "my token".
Proof. reflexivity. Qed.

(** [1.5 > 1] and not [1.5 > 2]; [nan] is above nothing. *)
Example float_gt_int_examples :
  float_gt_int (S754_finite false 3 (-1)) 1 = true /\
  float_gt_int (S754_finite false 3 (-1)) 2 = false /\
  float_gt_int S754_nan (-5) = false.
Proof. repeat split. Qed.

(** The scenario of the specification: the record holds the refresh token
    rt123 and the server answers with the token AT1 and an expiry; [main]
    loads, reports, authenticates, saves and probes. *)
Example main_default_run :
  let server :=
    Sample.ok (JObj [("token", JStr "AT1"); ("expire_at", JInt 1700009999)]) in
  let r :=
    main (Sample.env server Sample.agents WriteOk) Sample.arguments_default
      (boot (Sample.record [("refresh_token", JStr "rt123")]) []) in
  fst r = Return tt /\
  access_token (self (snd r)) = JStr "AT1" /\
  token_expires_at (self (snd r)) = JInt 1700009999 /\
  fs (snd r) !! Sample.file =
    Some (Document
            (JObj [("refresh_token", JStr "rt123");
                   ("timestamp", JInt 1700000000123);
                   ("created_at", JStr "2023-11-14T22:13:20.123000");
                   ("access_token", JStr "AT1");
                   ("expires_at", JInt 1700009999)])) /\
  filter (fun ev => is_network ev = true) (trace (snd r)) =
    [HttpPost "https://api.picussecurity.com/v1/auth/token" (JStr "rt123");
     HttpGet "https://api.picussecurity.com/v1/agents" (JStr "AT1")].
Proof. vm_compute. repeat split. Qed.

(** The wizard with an empty answer to its second question gives up before
    any request. *)
Example interactive_setup_without_token :
  let r := interactive_setup Sample.quiet
             {| self := new_helper Sample.url Sample.file; fs := ∅;
                stdin := [""; "   "]; trace := [] |} in
  fst r = Return false /\
  existsb is_network (trace (snd r)) = false /\
  refresh_token (self (snd r)) = JNull.
Proof. vm_compute. repeat split. Qed.

(** ** [load_tokens] *)

(** [load_tokens] on a file that holds a JSON object, as a function of the
    three keys it looks up. *)
Lemma load_tokens_document (E : Env) (m : machine) (kvs : list (string * json)) :
  fs m !! token_file (self m) = Some (Document (JObj kvs)) ->
  load_tokens E m =
    let rt := Json.get kvs "refresh_token" in
    let at_ := Json.get kvs "access_token" in
    let ts := Json.get kvs "timestamp" in
    let m1 := with_self m (loaded (self m) rt at_) in
    if negb (truthy rt) then
      (Return false, after m1 [Print MsgNoRefreshTokenInFile])
    else if eq_str rt placeholder then
      (Return false, after m1 [Print MsgUpdateRefreshToken])
    else if truthy ts then
      match (if is_number ts then token_age_days E ts else None) with
      | Some age =>
          (Return true,
           after m1
             (Print (MsgLoadedRefreshToken age)
                :: if 180 <? age then [Print MsgOlderThanSixMonths] else []))
      | None => (Return false, after m1 [Print MsgErrorLoading])
      end
    else (Return true, after m1 [Print MsgNoTimestamp]).
Proof.
  intros Hf. unfold load_tokens, age_in_days. unfold_attrs. unfold_monad. run.
  rewrite (path_exists_found _ _ _ Hf). run.
  rewrite (json_load_document _ _ _ Hf). run.
  destruct (truthy (Json.get kvs "refresh_token")); run; [|reflexivity].
  destruct (eq_str _ placeholder); run; [reflexivity|].
  destruct (truthy (Json.get kvs "timestamp")); run; [|reflexivity].
  destruct (is_number _); run; [|reflexivity].
  destruct (token_age_days E _) as [age|]; run; [|reflexivity].
  destruct (180 <? age); run;
    unfold after, with_self; simpl; rewrite <- ?app_assoc; reflexivity.
Qed.

(** Whatever the file holds, [load_tokens] assigns only [refresh_token] and
    [access_token]; the expiry, the other attributes, the files and
    standard input are left alone. *)
Lemma load_tokens_frame (E : Env) (m : machine) :
  let m' := snd (load_tokens E m) in
  base_url (self m') = base_url (self m) /\
  token_file (self m') = token_file (self m) /\
  token_expires_at (self m') = token_expires_at (self m) /\
  fs m' = fs m /\ stdin m' = stdin m.
Proof.
  destruct (fs m !! token_file (self m)) as [n|] eqn:Hf.
  2:{ unfold load_tokens. unfold_monad. run.
      rewrite (path_exists_missing _ _ Hf). by run. }
  destruct n as [| |v].
  1,2: unfold load_tokens; unfold_monad; run;
       rewrite (path_exists_found _ _ _ Hf); run;
       rewrite json_load_raises by (intros v; rewrite Hf; done); by run.
  destruct v as [| | | | | |kvs].
  7:{ rewrite (load_tokens_document E m kvs Hf). cbv zeta.
      repeat case_match; done. }
  all: unfold load_tokens; unfold_attrs; unfold_monad; run;
       rewrite (path_exists_found _ _ _ Hf); run;
       rewrite (json_load_document _ _ _ Hf); by run.
Qed.

(** A missing or placeholder refresh token is turned down with one
    message. *)
Lemma load_tokens_rejects (E : Env) (m : machine) (kvs : list (string * json)) :
  fs m !! token_file (self m) = Some (Document (JObj kvs)) ->
  truthy (Json.get kvs "refresh_token") = false \/
    Json.get kvs "refresh_token" = JStr placeholder ->
  load_tokens E m =
    (Return false,
     after (with_self m (loaded (self m) (Json.get kvs "refresh_token")
                           (Json.get kvs "access_token")))
       [Print (rejection (Json.get kvs "refresh_token"))]).
Proof.
  intros Hf H. rewrite (load_tokens_document E m kvs Hf). cbv zeta.
  unfold rejection. destruct H as [H|H].
  - rewrite H. reflexivity.
  - rewrite H. reflexivity.
Qed.

(** C10: a record file with a usable refresh token and no [timestamp] field
    loads successfully; [load_tokens] returns [True], reports that the age
    is unknown, and raises no error. *)
Theorem load_tokens_without_timestamp
    (E : Env) (m : machine) (kvs : list (string * json)) :
  fs m !! token_file (self m) = Some (Document (JObj kvs)) ->
  truthy (Json.get kvs "refresh_token") = true ->
  eq_str (Json.get kvs "refresh_token") placeholder = false ->
  find_key "timestamp" kvs = None ->
  load_tokens E m =
    (Return true,
     after (with_self m (loaded (self m) (Json.get kvs "refresh_token")
                           (Json.get kvs "access_token")))
       [Print MsgNoTimestamp]).
Proof.
  intros Hf Hrt Hph Hts. rewrite (load_tokens_document E m kvs Hf). cbv zeta.
  rewrite Hrt, Hph. unfold Json.get at 3. rewrite Hts. reflexivity.
Qed.

Lemma load_tokens_without_timestamp_witness :
  load_tokens Sample.quiet
    (Sample.start (Sample.record [("refresh_token", JStr "rt123")])) =
    (Return true,
     after (with_self
              (Sample.start (Sample.record [("refresh_token", JStr "rt123")]))
              (loaded (new_helper Sample.url Sample.file) (JStr "rt123") JNull))
       [Print MsgNoTimestamp]).
Proof.
  apply (load_tokens_without_timestamp Sample.quiet
           (Sample.start (Sample.record [("refresh_token", JStr "rt123")]))
           [("refresh_token", JStr "rt123")]);
    vm_compute; reflexivity.
Defined.

(** C6: a record whose refresh token is missing or is the placeholder makes
    [load_tokens] fail, and [main], whenever it loads the record, stops
    there: it prints the rejection and the hint and issues no request, so
    [authenticate] is never attempted on the record. *)
Theorem load_tokens_rejects_unusable_refresh_token
    (E : Env) (kvs : list (string * json)) :
  truthy (Json.get kvs "refresh_token") = false \/
    Json.get kvs "refresh_token" = JStr placeholder ->
  (forall m : machine,
     fs m !! token_file (self m) = Some (Document (JObj kvs)) ->
     fst (load_tokens E m) = Return false /\
     events_since m (snd (load_tokens E m)) =
       [Print (rejection (Json.get kvs "refresh_token"))]) /\
  (forall (args : arguments) (files : gmap string node) (lines : list string),
     arg_create_example args = false ->
     arg_setup args = false ->
     files !! arg_token_file args = Some (Document (JObj kvs)) ->
     let r := main E args (boot files lines) in
     fst r = Return tt /\
     trace (snd r) =
       [Print (rejection (Json.get kvs "refresh_token"));
        Print MsgHintCreateExample] /\
     existsb is_network (trace (snd r)) = false /\
     fs (snd r) = files).
Proof.
  intros H. split.
  - intros m Hf. rewrite (load_tokens_rejects E m kvs Hf H). split; [done|].
    by apply events_since_after.
  - intros args files lines Hce Hs Hf r. subst r.
    unfold main, init. unfold_monad. run. rewrite Hce, Hs. run.
    rewrite (load_tokens_rejects E _ kvs) by (run; done).
    run. by destruct (truthy _).
Qed.

Lemma load_tokens_rejects_unusable_refresh_token_witness :
  let kvs := [("refresh_token", JStr placeholder)] in
  fst (load_tokens Sample.quiet (Sample.start (Sample.record kvs))) =
    Return false /\
  trace (snd (main Sample.quiet Sample.arguments_default
                (boot (Sample.record kvs) []))) =
    [Print MsgUpdateRefreshToken; Print MsgHintCreateExample].
Proof.
  pose proof (load_tokens_rejects_unusable_refresh_token Sample.quiet
                [("refresh_token", JStr placeholder)]
                (or_intror eq_refl)) as [Hload Hmain].
  split.
  - apply (Hload (Sample.start
                    (Sample.record [("refresh_token", JStr placeholder)]))).
    vm_compute; reflexivity.
  - apply (Hmain Sample.arguments_default
             (Sample.record [("refresh_token", JStr placeholder)]) []);
      vm_compute; reflexivity.
Defined.

(** C7: with no access token set, [test_api_connection] returns [False]
    after a single message; no request is issued. *)
Theorem test_api_connection_without_access_token (E : Env) (m : machine) :
  truthy (access_token (self m)) = false ->
  test_api_connection E m =
    (Return false, after m [Print MsgNoAccessTokenForTesting]) /\
  existsb is_network
    (events_since m (snd (test_api_connection E m))) = false.
Proof.
  intros H.
  assert (test_api_connection E m =
            (Return false, after m [Print MsgNoAccessTokenForTesting])) as ->.
  { unfold test_api_connection. unfold_monad. run. rewrite H. reflexivity. }
  split; [done|]. cbn [snd]. by rewrite events_since_after.
Qed.

Lemma test_api_connection_without_access_token_witness :
  test_api_connection Sample.quiet (Sample.start ∅) =
    (Return false, after (Sample.start ∅) [Print MsgNoAccessTokenForTesting]).
Proof.
  apply (test_api_connection_without_access_token Sample.quiet
           (Sample.start ∅)).
  reflexivity.
Defined.

(** ** [get_token_status] *)

(** The report for an object that holds an access token and an integer
    expiry. *)
Lemma get_token_status_int (E : Env) (m : machine) (e : Z) :
  truthy (access_token (self m)) = true ->
  token_expires_at (self m) = JInt e ->
  get_token_status E m =
    (Return tt,
     after m
       (status_report (self m)
          (if time_s E <? e then MsgAccessValid ((e - time_s E) / 60)
           else MsgAccessExpired))).
Proof.
  intros Hat He.
  unfold get_token_status, report_access_token, status_report, refresh_line.
  unfold_monad. run. rewrite Hat, He. run.
  destruct (truthy (refresh_token (self m)));
    [destruct (eq_str _ placeholder)|];
    destruct (time_s E <? e); run;
    unfold after; simpl; rewrite <- ?app_assoc; reflexivity.
Qed.



(** C2: [load_tokens] reads three keys of the file and no other, so two
    files that agree on [refresh_token], [access_token] and [timestamp]
    load alike; it never assigns [token_expires_at], which after a load
    into a new object is still the 0 of the constructor; hence the status
    report right after such a load calls any stored access token
    expired. *)
Theorem load_tokens_never_reads_expires_at
    (E : Env) (url file : string) (files : gmap string node)
    (lines : list string) (tr : list event) (kvs : list (string * json)) :
  files !! file = Some (Document (JObj kvs)) ->
  0 <= time_s E ->
  let m := Machine (new_helper url file) files lines tr in
  let r := load_tokens E m in
  (forall kvs' : list (string * json),
     Json.get kvs' "refresh_token" = Json.get kvs "refresh_token" ->
     Json.get kvs' "access_token" = Json.get kvs "access_token" ->
     Json.get kvs' "timestamp" = Json.get kvs "timestamp" ->
     let r' :=
       load_tokens E
         (Machine (new_helper url file)
            (<[file := Document (JObj kvs')]> files) lines tr) in
     fst r' = fst r /\ self (snd r') = self (snd r) /\
     trace (snd r') = trace (snd r)) /\
  self (snd r) =
    loaded (new_helper url file) (Json.get kvs "refresh_token")
      (Json.get kvs "access_token") /\
  token_expires_at (self (snd r)) = JInt 0 /\
  (truthy (Json.get kvs "access_token") = true ->
   get_token_status E (snd r) =
     (Return tt,
      after (snd r) (status_report (self (snd r)) MsgAccessExpired))).
Proof.
  intros Hf Hnow m r.
  assert (self (snd r) =
            loaded (new_helper url file) (Json.get kvs "refresh_token")
              (Json.get kvs "access_token")) as Hself.
  { subst r. rewrite (load_tokens_document E m kvs Hf). cbv zeta.
    repeat case_match; reflexivity. }
  split; [|split; [exact Hself|split]].
  - intros kvs' Hrt Hat Hts r'. subst r r'.
    rewrite (load_tokens_document E m kvs Hf).
    rewrite (load_tokens_document E _ kvs') by (simpl; apply lookup_insert_eq).
    cbv zeta. rewrite Hrt, Hat, Hts.
    repeat case_match; done.
  - by rewrite Hself.
  - intros Hat.
    rewrite (get_token_status_int E (snd r) 0).
    + replace (time_s E <? 0) with false by (symmetry; by apply Z.ltb_ge).
      reflexivity.
    + by rewrite Hself.
    + by rewrite Hself.
Qed.

Lemma load_tokens_never_reads_expires_at_witness :
  let kvs := [("refresh_token", JStr "rt123"); ("access_token", JStr "AT1");
              ("expires_at", JInt 1700003600)] in
  let r := load_tokens Sample.quiet (Sample.start (Sample.record kvs)) in
  token_expires_at (self (snd r)) = JInt 0 /\
  get_token_status Sample.quiet (snd r) =
    (Return tt, after (snd r) (status_report (self (snd r)) MsgAccessExpired)).
Proof.
  intros kvs r.
  assert (Sample.record kvs !! Sample.file = Some (Document (JObj kvs))) as Hf
    by (vm_compute; reflexivity).
  assert (0 <= time_s Sample.quiet) as Hnow by (vm_compute; discriminate).
  pose proof (load_tokens_never_reads_expires_at Sample.quiet Sample.url
                Sample.file (Sample.record kvs) [] [] kvs Hf Hnow)
    as (_ & _ & Hexp & Hstatus).
  split; [exact Hexp | exact (Hstatus eq_refl)].
Defined.

(** ** [save_tokens] *)

(** [save_tokens] never raises and changes nothing but the token file and
    the trace. *)
Lemma save_tokens_run (E : Env) (m : machine) (refresh access expires : json) :
  save_tokens E refresh access expires m =
    (Return tt, saved E m (JObj (token_data_of E refresh access expires))).
Proof.
  unfold save_tokens, json_dump, chmod, saved, after. unfold_monad. run.
  destruct (open_write E (token_file (self m))); run;
    [destruct (chmod_ok E (token_file (self m))); run|..];
    rewrite <- ?app_assoc; reflexivity.
Qed.

(** The keys of the dict that [save_tokens] builds. *)
Lemma token_data_of_keys (E : Env) (refresh access expires : json) :
  let kvs := token_data_of E refresh access expires in
  Json.get kvs "refresh_token" = refresh /\
  Json.get kvs "timestamp" = JInt (time_ms E) /\
  Json.get kvs "access_token" = (if truthy access then access else JNull) /\
  Json.get kvs "expires_at" = (if truthy expires then expires else JNull) /\
  has_key "access_token" kvs = truthy access /\
  has_key "expires_at" kvs = truthy expires.
Proof.
  unfold token_data_of.
  destruct (truthy access), (truthy expires); repeat split; reflexivity.
Qed.

(** What a successful [save_tokens] followed by [load_tokens] brings back:
    the refresh token, the access token if it was truthy, and no expiry;
    [token_expires_at] is what it was before the load. *)
Lemma save_then_load (E : Env) (m : machine) (refresh access expires : json) :
  open_write E (token_file (self m)) = WriteOk ->
  let m1 := snd (save_tokens E refresh access expires m) in
  let m2 := snd (load_tokens E m1) in
  refresh_token (self m2) = refresh /\
  access_token (self m2) = (if truthy access then access else JNull) /\
  token_expires_at (self m2) = token_expires_at (self m).
Proof.
  intros Hw m1 m2.
  assert (fs m1 !! token_file (self m1) =
            Some (Document (JObj (token_data_of E refresh access expires))))
    as Hf.
  { subst m1. rewrite save_tokens_run. unfold saved. rewrite Hw. simpl.
    apply lookup_insert_eq. }
  assert (self m1 = self m) as Hself.
  { subst m1. rewrite save_tokens_run. unfold saved. by rewrite Hw. }
  destruct (token_data_of_keys E refresh access expires)
    as (Hrt & _ & Hat & _).
  destruct (load_tokens_frame E m1) as (_ & _ & Hexp & _).
  fold m2 in Hexp. rewrite Hself in Hexp.
  split; [|split; [|exact Hexp]].
  - subst m2. rewrite (load_tokens_document E m1 _ Hf). cbv zeta.
    rewrite Hrt. repeat case_match; reflexivity.
  - subst m2. rewrite (load_tokens_document E m1 _ Hf). cbv zeta.
    rewrite Hat. repeat case_match; reflexivity.
Qed.

(** C1: at the call [save_tokens("rt123", "AT1", 1700003600)] the file
    receives all three values, and the [load_tokens] that follows returns
    [True] with the refresh token and the access token restored, but with
    [token_expires_at] still 0: the saved expiry does not come back. *)
Theorem save_then_load_loses_expires_at :
  let m1 :=
    snd (save_tokens Sample.quiet (JStr "rt123") (JStr "AT1")
           (JInt 1700003600) (Sample.start ∅)) in
  let r := load_tokens Sample.quiet m1 in
  fs m1 !! Sample.file =
    Some (Document
            (JObj [("refresh_token", JStr "rt123");
                   ("timestamp", JInt 1700000000123);
                   ("created_at", JStr "2023-11-14T22:13:20.123000");
                   ("access_token", JStr "AT1");
                   ("expires_at", JInt 1700003600)])) /\
  fst r = Return true /\
  refresh_token (self (snd r)) = JStr "rt123" /\
  access_token (self (snd r)) = JStr "AT1" /\
  token_expires_at (self (snd r)) = JInt 0 /\
  token_expires_at (self (snd r)) <> JInt 1700003600.
Proof. vm_compute. repeat split; discriminate. Qed.

(** C3 fails as stated: [save_tokens("rt123", "AT1")], with the expiry left
    at its default [None], writes a record that has [access_token] and no
    [expires_at]. *)
Lemma save_tokens_access_token_without_expiry :
  exists kvs : list (string * json),
    fs (snd (save_tokens Sample.quiet (JStr "rt123") (JStr "AT1") JNull
               (Sample.start ∅))) !! Sample.file
      = Some (Document (JObj kvs)) /\
    has_key "access_token" kvs = true /\
    has_key "expires_at" kvs = false /\
    ~ written_together kvs.
Proof.
  eexists. split; [vm_compute; reflexivity|].
  repeat split; try reflexivity. unfold written_together. vm_compute. discriminate.
Qed.

(** C3, amended: a [save_tokens] whose write succeeds puts [access_token]
    in the record exactly when the access token it is given is truthy, and
    [expires_at] exactly when the expiry it is given is truthy; so whenever
    the two arguments are both truthy or both falsy the record holds both
    fields or neither. *)
Theorem save_tokens_writes_each_truthy_field
    (E : Env) (m : machine) (refresh access expires : json) :
  open_write E (token_file (self m)) = WriteOk ->
  exists kvs : list (string * json),
    fs (snd (save_tokens E refresh access expires m)) !! token_file (self m)
      = Some (Document (JObj kvs)) /\
    has_key "access_token" kvs = truthy access /\
    has_key "expires_at" kvs = truthy expires /\
    (truthy access = truthy expires -> written_together kvs).
Proof.
  intros Hw. exists (token_data_of E refresh access expires).
  destruct (token_data_of_keys E refresh access expires)
    as (_ & _ & _ & _ & Hat & Hexp).
  split; [|split; [exact Hat|split; [exact Hexp|]]].
  - rewrite save_tokens_run. unfold saved. rewrite Hw. simpl.
    apply lookup_insert_eq.
  - intros Heq. unfold written_together. by rewrite Hat, Hexp.
Qed.

Lemma save_tokens_writes_each_truthy_field_witness :
  exists kvs : list (string * json),
    fs (snd (save_tokens Sample.quiet (JStr "rt123") (JStr "AT1")
               (JInt 1700003600) (Sample.start ∅))) !! Sample.file
      = Some (Document (JObj kvs)) /\
    has_key "access_token" kvs = true /\
    has_key "expires_at" kvs = true /\
    (true = true -> written_together kvs).
Proof.
  apply (save_tokens_writes_each_truthy_field Sample.quiet (Sample.start ∅)
           (JStr "rt123") (JStr "AT1") (JInt 1700003600)).
  reflexivity.
Defined.

(** C9 fails as stated: the same [save_tokens] call in a world where the
    file cannot be opened and in one where the write succeeds leaves
    different files behind but hands the same result to its caller, and
    [authenticate], its only caller, returns [True] with the same object in
    both. *)
Lemma save_tokens_failure_is_not_returned :
  let failing := Sample.env Sample.token_only Sample.agents OpenFails in
  let m := with_self (Sample.start ∅)
             (loaded (new_helper Sample.url Sample.file) (JStr "rt123") JNull) in
  let save E := save_tokens E (JStr "rt123") (JStr "AT1") (JInt 1700003600) m in
  fs (snd (save failing)) !! Sample.file = None /\
  is_Some (fs (snd (save Sample.quiet)) !! Sample.file) /\
  ~ (fst (save failing) <> fst (save Sample.quiet)) /\
  fst (authenticate failing m) = Return true /\
  fst (authenticate Sample.quiet m) = Return true /\
  self (snd (authenticate failing m)) = self (snd (authenticate Sample.quiet m)).
Proof.
  vm_compute. repeat split; try done. by eexists.
Qed.

(** C9, amended: [save_tokens] returns [None] and raises nothing whether or
    not the write went through, and leaves the object untouched; a failed
    write is caught and shows on the console only, as the error message in
    place of one of the two messages of a successful save. *)
Theorem save_tokens_reports_failure_on_console_only
    (E : Env) (m : machine) (refresh access expires : json) :
  let r := save_tokens E refresh access expires m in
  let path := token_file (self m) in
  fst r = Return tt /\
  self (snd r) = self m /\
  events_since m (snd r) =
    match open_write E path with
    | WriteOk =>
        [FileWrite path; Chmod path;
         Print (if chmod_ok E path then MsgSavedSecure path
                else MsgSavedNoPermissions path)]
    | OpenFails | DumpFails => [FileWrite path; Print MsgErrorSaving]
    end.
Proof.
  intros r path. subst r path. rewrite save_tokens_run. cbn [fst snd].
  unfold saved, events_since.
  destruct (open_write E (token_file (self m))); simpl;
    repeat split; apply drop_app_length.
Qed.

(** ** [authenticate] *)

Lemma requests_post_response
    (E : Env) (m : machine) (url : string) (v : json) (r : response) :
  http_post E url v = NetResponse r ->
  requests_post E url v m = (Return r, after m [HttpPost url v]).
Proof. intros H. unfold requests_post. unfold_monad. by rewrite H. Qed.

Lemma is_2xx_not_http_error (code : Z) :
  is_2xx code = true -> is_http_error code = false.
Proof. unfold is_2xx, is_http_error. lia. Qed.

(** A status code that [raise_for_status] rejects ends [authenticate]
    before the body is looked at. *)
Lemma authenticate_http_error (E : Env) (m : machine) (r : response) :
  truthy (refresh_token (self m)) = true ->
  http_post E (auth_url m) (refresh_token (self m)) = NetResponse r ->
  is_http_error (status_code r) = true ->
  rejects E m r.
Proof.
  intros Hrt Hpost Herr. unfold rejects, auth_url in *.
  unfold authenticate, raise_for_status. unfold_monad. run.
  rewrite Hrt. run.
  rewrite (requests_post_response E _ _ _ r Hpost). run.
  rewrite Herr. run.
  unfold after; simpl; rewrite <- ?app_assoc; reflexivity.
Qed.

(** [authenticate] on a response that passes [raise_for_status], carries a
    JSON object with a truthy [token] and gives no truthy [expire_at]. *)
Lemma authenticate_default_expiry
    (E : Env) (m : machine) (r : response) (kvs : list (string * json)) :
  truthy (refresh_token (self m)) = true ->
  http_post E (auth_url m) (refresh_token (self m)) = NetResponse r ->
  is_http_error (status_code r) = false ->
  body_json r = Some (JObj kvs) ->
  truthy (Json.get kvs "token") = true ->
  truthy (Json.get kvs "expire_at") = false ->
  let token := Json.get kvs "token" in
  let m1 :=
    after (with_self m (authenticated_by_default E (self m) token))
      [Print (MsgAuthenticating (auth_url m));
       HttpPost (auth_url m) (refresh_token (self m));
       Print MsgAuthSuccessful] in
  authenticate E m =
    match slice_prefix 20 token with
    | Some prefix =>
        (Return true,
         saved E
           (after m1 [Print (MsgAccessTokenPrefix prefix);
                      Print MsgExpiresInOneHour])
           (JObj (token_data_of E (refresh_token (self m)) token
                    (JInt (time_s E + 3600)))))
    | None => (Return false, after m1 [Print MsgAuthenticationError])
    end.
Proof.
  intros Hrt Hpost Herr Hbody Htok Hexp token m1. subst token m1.
  unfold auth_url in *.
  unfold authenticate, raise_for_status, report_success.
  unfold_attrs. unfold_monad. run.
  rewrite Hrt. run.
  rewrite (requests_post_response E _ _ _ r Hpost). run.
  rewrite Herr. run. rewrite Hbody. run. rewrite Htok, Hexp. run.
  destruct (slice_prefix 20 (Json.get kvs "token")) as [prefix|]; run.
  - rewrite save_tokens_run. run.
    unfold saved, after, with_self, authenticated_by_default; simpl.
    destruct (open_write E (token_file (self m))); simpl;
      rewrite <- ?app_assoc; reflexivity.
  - unfold after, with_self, authenticated_by_default; simpl.
    rewrite <- ?app_assoc; reflexivity.
Qed.

(** C4 fails as stated: a response with status 300, which is not a 2xx
    code, and a body that carries a token is not turned down;
    [authenticate] returns [True], takes the token and saves it. *)
Lemma authenticate_accepts_status_300 :
  let r := Response 300 "" (Some (JObj [("token", JStr "AT1")])) in
  let E := Sample.env (NetResponse r) Sample.agents WriteOk in
  let m := with_self (Sample.start ∅)
             (loaded (new_helper Sample.url Sample.file) (JStr "rt123") JNull) in
  http_post E (auth_url m) (refresh_token (self m)) = NetResponse r /\
  is_2xx (status_code r) = false /\
  ~ rejects E m r /\
  fst (authenticate E m) = Return true /\
  access_token (self m) = JNull /\
  access_token (self (snd (authenticate E m))) = JStr "AT1" /\
  existsb is_file_write (trace (snd (authenticate E m))) = true /\
  is_Some (fs (snd (authenticate E m)) !! Sample.file).
Proof.
  intros r E m. split; [reflexivity|]. split; [reflexivity|].
  assert (fst (authenticate E m) = Return true) as Hret
    by (vm_compute; reflexivity).
  split.
  - unfold rejects. intros Hrej. rewrite Hrej in Hret. cbn [fst] in Hret.
    congruence.
  - split; [exact Hret|]. vm_compute. repeat split. by eexists.
Qed.

(** C4, amended: for every response whose status code is a client or
    server error, 400 to 599, the 401 case included, [authenticate] returns
    [False] after reporting the status code and the body; the object, with
    its access token, and the files are unchanged and nothing is written. *)
Theorem authenticate_rejects_http_errors
    (E : Env) (m : machine) (r : response) :
  truthy (refresh_token (self m)) = true ->
  http_post E (auth_url m) (refresh_token (self m)) = NetResponse r ->
  400 <= status_code r < 600 ->
  rejects E m r /\
  fst (authenticate E m) = Return false /\
  self (snd (authenticate E m)) = self m /\
  fs (snd (authenticate E m)) = fs m /\
  existsb is_file_write (events_since m (snd (authenticate E m))) = false.
Proof.
  intros Hrt Hpost Hcode.
  assert (rejects E m r) as Hrej.
  { apply authenticate_http_error; try done. unfold is_http_error. lia. }
  split; [exact Hrej|]. unfold rejects in Hrej. rewrite Hrej. cbn [fst snd].
  repeat split. by rewrite events_since_after.
Qed.

Lemma authenticate_rejects_http_errors_witness :
  let r := Response 401 "invalid refresh token" None in
  let E := Sample.env (NetResponse r) Sample.agents WriteOk in
  let m := with_self (Sample.start ∅)
             (loaded (new_helper Sample.url Sample.file) (JStr "rt123") JNull) in
  rejects E m r /\ self (snd (authenticate E m)) = self m.
Proof.
  intros r E m.
  assert (400 <= status_code r < 600) as Hcode by (subst r; simpl; lia).
  pose proof (authenticate_rejects_http_errors E m r eq_refl eq_refl Hcode)
    as (Hrej & _ & Hself & _).
  split; [exact Hrej | exact Hself].
Defined.

(** C5: when the server answers with a 2xx status and a JSON object that
    carries an access token and no [expire_at] field, [authenticate] sets
    [token_expires_at] to the current time plus 3600 seconds, which lies in
    [[now + 3599, now + 3601]]; if the token can be printed the call
    returns [True], and a successful write stores that expiry in the
    record. *)
Theorem authenticate_defaults_expiry_to_one_hour
    (E : Env) (m : machine) (r : response) (kvs : list (string * json)) :
  truthy (refresh_token (self m)) = true ->
  http_post E (auth_url m) (refresh_token (self m)) = NetResponse r ->
  is_2xx (status_code r) = true ->
  body_json r = Some (JObj kvs) ->
  truthy (Json.get kvs "token") = true ->
  find_key "expire_at" kvs = None ->
  let now := time_s E in
  let m' := snd (authenticate E m) in
  (exists expires : Z,
     token_expires_at (self m') = JInt expires /\
     expires = now + 3600 /\
     now + 3599 <= expires <= now + 3601) /\
  access_token (self m') = Json.get kvs "token" /\
  (forall prefix : json,
     slice_prefix 20 (Json.get kvs "token") = Some prefix ->
     fst (authenticate E m) = Return true /\
     (open_write E (token_file (self m)) = WriteOk ->
      now + 3600 <> 0 ->
      exists doc : list (string * json),
        fs m' !! token_file (self m) = Some (Document (JObj doc)) /\
        Json.get doc "access_token" = Json.get kvs "token" /\
        Json.get doc "expires_at" = JInt (now + 3600))).
Proof.
  intros Hrt Hpost H2xx Hbody Htok Hkey now m'.
  assert (truthy (Json.get kvs "expire_at") = false) as Hexp
    by (unfold Json.get; by rewrite Hkey).
  pose proof (authenticate_default_expiry E m r kvs Hrt Hpost
                (is_2xx_not_http_error _ H2xx) Hbody Htok Hexp) as Hrun.
  cbv zeta in Hrun. subst m'.
  split; [|split].
  - exists (now + 3600). split; [|lia]. rewrite Hrun.
    destruct (slice_prefix 20 _); cbn [snd]; [|reflexivity].
    unfold saved. destruct (open_write E _); reflexivity.
  - rewrite Hrun.
    destruct (slice_prefix 20 _); cbn [snd]; [|reflexivity].
    unfold saved. destruct (open_write E _); reflexivity.
  - intros prefix Hprefix. rewrite Hrun, Hprefix. cbn [fst snd].
    split; [reflexivity|]. intros Hw Hnz.
    eexists. unfold saved. cbn [self after with_self token_file
      authenticated_by_default expiring loaded].
    rewrite Hw. cbn [fs]. split; [apply lookup_insert_eq|].
    destruct (token_data_of_keys E (refresh_token (self m))
                (Json.get kvs "token") (JInt (time_s E + 3600)))
      as (_ & _ & Hat & Hex & _).
    rewrite Hat, Hex, Htok. split; [reflexivity|].
    unfold truthy. fold now.
    destruct (now + 3600 =? 0) eqn:Hz; [lia|reflexivity].
Qed.

Lemma authenticate_defaults_expiry_to_one_hour_witness :
  let m := with_self (Sample.start ∅)
             (loaded (new_helper Sample.url Sample.file) (JStr "rt123") JNull) in
  let m' := snd (authenticate Sample.quiet m) in
  (exists expires : Z,
     token_expires_at (self m') = JInt expires /\
     expires = 1700000000 + 3600 /\
     1700000000 + 3599 <= expires <= 1700000000 + 3601) /\
  access_token (self m') = JStr "AT1".
Proof.
  intros m m'.
  pose proof (authenticate_defaults_expiry_to_one_hour Sample.quiet m
                (Response 200 "" (Some (JObj [("token", JStr "AT1")])))
                [("token", JStr "AT1")]
                eq_refl eq_refl eq_refl eq_refl eq_refl eq_refl)
    as (Hexp & Hat & _).
  split; [exact Hexp | exact Hat].
Defined.

(** * Further properties *)

(** ** Strings *)

Lemma append_empty (s : string) : "" +:+ s = s.
Proof. reflexivity. Qed.

Lemma append_cons (c : ascii) (r s : string) :
  String c r +:+ s = String c (r +:+ s).
Proof. reflexivity. Qed.

Lemma rstrip_slash_decompose (s : string) :
  exists n : nat, s = Str.rstrip_slash s +:+ slashes n.
Proof.
  unfold Str.rstrip_slash. induction s as [|c r [n IH]]; [by exists 0%nat|].
  simpl. destruct (Str.rstrip Str.is_slash r) as [|c' r'] eqn:Hr.
  - rewrite append_empty in IH. destruct (Str.is_slash c) eqn:Hc.
    + exists (S n). rewrite append_empty. simpl. unfold Str.is_slash in Hc.
      apply Ascii.eqb_eq in Hc. by rewrite Hc, <- IH.
    + exists n. rewrite append_cons, append_empty. by rewrite <- IH.
  - exists n. rewrite append_cons. by rewrite <- IH.
Qed.

Lemma rstrip_slash_no_trailing_slash (s t : string) :
  Str.rstrip_slash s <> t +:+ "/".
Proof.
  unfold Str.rstrip_slash. revert t. induction s as [|c r IH]; intros t.
  - simpl. by destruct t.
  - simpl. destruct (Str.rstrip Str.is_slash r) as [|c' r'] eqn:Hr.
    + destruct (Str.is_slash c) eqn:Hc.
      * by destruct t.
      * destruct t as [|c2 t].
        -- rewrite append_empty. intros [= ->]. done.
        -- rewrite append_cons. intros [= _ H]. by destruct t.
    + destruct t as [|c2 t].
      * rewrite append_empty. intros [= _ H].
      * rewrite append_cons. intros [= _ H]. by apply (IH t).
Qed.

(** X1: the constructor stores the base URL without its trailing slashes:
    the URL given is the stored one followed by slashes only, and the
    stored one does not end in a slash, so the endpoint URLs built from it
    have a single slash before [v1]. *)
Theorem new_helper_strips_trailing_slashes (url file : string) :
  (exists n : nat, url = base_url (new_helper url file) +:+ slashes n) /\
  (forall t : string, base_url (new_helper url file) <> t +:+ "/") /\
  base_url (new_helper (base_url (new_helper url file)) file) =
    base_url (new_helper url file).
Proof.
  cbn [new_helper base_url]. split; [apply rstrip_slash_decompose|].
  split; [intros t; apply rstrip_slash_no_trailing_slash|].
  destruct (rstrip_slash_decompose (Str.rstrip_slash url)) as [n Hn].
  destruct n as [|n].
  - simpl in Hn. rewrite Hn at 2.
    clear. induction (Str.rstrip_slash _) as [|c r IH]; [done|].
    rewrite append_cons. by rewrite <- IH.
  - exfalso. revert Hn. generalize (Str.rstrip_slash (Str.rstrip_slash url)).
    intros u Hn. revert u Hn.
    induction n as [|n IH]; intros u Hn.
    + by apply (rstrip_slash_no_trailing_slash url u).
    + apply (IH (u +:+ "/")). rewrite Hn. clear.
      induction u as [|c r IHu]; [done|].
      rewrite !append_cons. by rewrite IHu.
Qed.

(** ** More on [load_tokens] *)

(** [load_tokens] on anything but a JSON object. *)
Lemma load_tokens_without_json_object
    (E : Env) (m : machine) :
  (forall kvs : list (string * json),
     fs m !! token_file (self m) <> Some (Document (JObj kvs))) ->
  load_tokens E m =
    (Return false,
     after m
       [Print (match fs m !! token_file (self m) with
               | None => MsgTokenFileNotFound (token_file (self m))
               | Some _ => MsgErrorLoading
               end)]).
Proof.
  intros Hno.
  destruct (fs m !! token_file (self m)) as [n|] eqn:Hf.
  2:{ unfold load_tokens. unfold_monad. run.
      rewrite (path_exists_missing _ _ Hf). by run. }
  destruct n as [| |v].
  1,2: unfold load_tokens; unfold_monad; run;
       rewrite (path_exists_found _ _ _ Hf); run;
       rewrite json_load_raises by (intros v; rewrite Hf; done); by run.
  destruct v as [| | | | | |kvs]; [..|by destruct (Hno kvs)].
  all: unfold load_tokens; unfold_attrs; unfold_monad; run;
       rewrite (path_exists_found _ _ _ Hf); run;
       rewrite (json_load_document _ _ _ Hf); by run.
Qed.

(** X2: unless the token file holds a JSON object, [load_tokens] returns
    [False] after one message (not found for a missing file, the loading
    error for an unreadable file, text that is not JSON, or JSON that is
    not an object) and leaves the object, with the tokens it already
    holds, exactly as it was. *)
Theorem load_tokens_keeps_object_without_json_object
    (E : Env) (m : machine) :
  (forall kvs : list (string * json),
     fs m !! token_file (self m) <> Some (Document (JObj kvs))) ->
  load_tokens E m =
    (Return false,
     after m
       [Print (match fs m !! token_file (self m) with
               | None => MsgTokenFileNotFound (token_file (self m))
               | Some _ => MsgErrorLoading
               end)]).
Proof. apply load_tokens_without_json_object. Qed.

Lemma load_tokens_keeps_object_without_json_object_witness :
  let m := with_self
             (Sample.start {[ Sample.file := Document (JList [JStr "rt123"]) ]})
             (loaded (new_helper Sample.url Sample.file)
                (JStr "old-rt") (JStr "old-at")) in
  load_tokens Sample.quiet m = (Return false, after m [Print MsgErrorLoading]).
Proof.
  intros m.
  apply (load_tokens_keeps_object_without_json_object Sample.quiet m).
  intros kvs. vm_compute. discriminate.
Defined.

(** X3: the age of a record never blocks a load.  With a usable refresh
    token and a numeric timestamp whose age the clock can compute,
    [load_tokens] returns [True] whatever the age; it adds the warning
    exactly when the age is above 180 days, so 180 days pass silently and
    181 days are warned about. *)
Theorem load_tokens_age_is_advisory
    (E : Env) (m : machine) (kvs : list (string * json)) (age : Z) :
  fs m !! token_file (self m) = Some (Document (JObj kvs)) ->
  truthy (Json.get kvs "refresh_token") = true ->
  eq_str (Json.get kvs "refresh_token") placeholder = false ->
  truthy (Json.get kvs "timestamp") = true ->
  is_number (Json.get kvs "timestamp") = true ->
  token_age_days E (Json.get kvs "timestamp") = Some age ->
  fst (load_tokens E m) = Return true /\
  (age <= 180 ->
   events_since m (snd (load_tokens E m)) =
     [Print (MsgLoadedRefreshToken age)]) /\
  (180 < age ->
   events_since m (snd (load_tokens E m)) =
     [Print (MsgLoadedRefreshToken age); Print MsgOlderThanSixMonths]).
Proof.
  intros Hf Hrt Hph Hts Hnum Hage.
  rewrite (load_tokens_document E m kvs Hf). cbv zeta.
  rewrite Hrt, Hph, Hts, Hnum, Hage. cbn [negb fst snd].
  split; [reflexivity|]. split; intros Hcmp.
  - replace (180 <? age) with false by (symmetry; by apply Z.ltb_ge).
    by apply events_since_after.
  - replace (180 <? age) with true by (symmetry; by apply Z.ltb_lt).
    by apply events_since_after.
Qed.

Lemma load_tokens_age_is_advisory_witness :
  let kvs := [("refresh_token", JStr "rt123");
              ("timestamp", JInt 1600000000000)] in
  let E := {| clock_ms := clock_ms Sample.quiet;
              now_iso := now_iso Sample.quiet;
              token_age_days := fun _ => Some 181;
              fromtimestamp_ok := fromtimestamp_ok Sample.quiet;
              open_write := open_write Sample.quiet;
              chmod_ok := chmod_ok Sample.quiet;
              http_post := http_post Sample.quiet;
              http_get := http_get Sample.quiet |} in
  let m := Sample.start (Sample.record kvs) in
  fst (load_tokens E m) = Return true /\
  events_since m (snd (load_tokens E m)) =
    [Print (MsgLoadedRefreshToken 181); Print MsgOlderThanSixMonths].
Proof.
  intros kvs E m.
  assert (fs m !! token_file (self m) = Some (Document (JObj kvs))) as Hf
    by (vm_compute; reflexivity).
  pose proof (load_tokens_age_is_advisory E m kvs 181 Hf
                eq_refl eq_refl eq_refl eq_refl eq_refl) as (Hret & _ & Hold).
  split; [exact Hret|]. apply Hold. lia.
Defined.

(** X4: a record with a usable refresh token still fails to load when its
    [timestamp] is truthy but not a number (a date written as a string,
    say): dividing it by 1000 raises, the handler prints the loading error
    and [load_tokens] returns [False]; by then the object already holds the
    refresh token and the access token of the file. *)
Theorem load_tokens_fails_on_non_numeric_timestamp
    (E : Env) (m : machine) (kvs : list (string * json)) :
  fs m !! token_file (self m) = Some (Document (JObj kvs)) ->
  truthy (Json.get kvs "refresh_token") = true ->
  eq_str (Json.get kvs "refresh_token") placeholder = false ->
  truthy (Json.get kvs "timestamp") = true ->
  is_number (Json.get kvs "timestamp") = false ->
  load_tokens E m =
    (Return false,
     after (with_self m (loaded (self m) (Json.get kvs "refresh_token")
                           (Json.get kvs "access_token")))
       [Print MsgErrorLoading]).
Proof.
  intros Hf Hrt Hph Hts Hnum.
  rewrite (load_tokens_document E m kvs Hf). cbv zeta.
  by rewrite Hrt, Hph, Hts, Hnum.
Qed.

Lemma load_tokens_fails_on_non_numeric_timestamp_witness :
  let kvs := [("refresh_token", JStr "rt123");
              ("timestamp", JStr "2024-01-01")] in
  let m := Sample.start (Sample.record kvs) in
  load_tokens Sample.quiet m =
    (Return false,
     after (with_self m (loaded (self m) (JStr "rt123") JNull))
       [Print MsgErrorLoading]).
Proof.
  intros kvs m.
  apply (load_tokens_fails_on_non_numeric_timestamp Sample.quiet m kvs);
    vm_compute; reflexivity.
Defined.

Lemma with_self_loaded_same (m : machine) :
  with_self m (loaded (self m) (refresh_token (self m))
                 (access_token (self m))) = m.
Proof. by destruct m as [[]]. Qed.

(** Every end of [load_tokens]: a boolean, an object that differs at most
    in the two tokens, and nothing but printed messages. *)
Lemma load_tokens_shape (E : Env) (m : machine) :
  exists (b : bool) (rt at_ : json) (msgs : list message),
    load_tokens E m =
      (Return b, after (with_self m (loaded (self m) rt at_))
                   (map Print msgs)) /\
    (b = true ->
     truthy rt = true /\ eq_str rt placeholder = false /\
     exists kvs, fs m !! token_file (self m) = Some (Document (JObj kvs)) /\
                 rt = Json.get kvs "refresh_token" /\
                 at_ = Json.get kvs "access_token").
Proof.
  assert ((forall kvs, fs m !! token_file (self m) <> Some (Document (JObj kvs))) ->
          exists (b : bool) (rt at_ : json) (msgs : list message),
            load_tokens E m =
              (Return b, after (with_self m (loaded (self m) rt at_))
                           (map Print msgs)) /\
            (b = true ->
             truthy rt = true /\ eq_str rt placeholder = false /\
             exists kvs, fs m !! token_file (self m) = Some (Document (JObj kvs)) /\
                         rt = Json.get kvs "refresh_token" /\
                         at_ = Json.get kvs "access_token")) as Hno.
  { intros Hno. exists false, (refresh_token (self m)), (access_token (self m)).
    eexists [_]. split; [|done].
    rewrite with_self_loaded_same.
    by apply load_tokens_without_json_object. }
  destruct (fs m !! token_file (self m)) as [[| |v]|] eqn:Hf;
    try (apply Hno; intros kvs; done).
  destruct v as [| | | | | |kvs]; try (apply Hno; intros kvs; done).
  clear Hno.
  rewrite (load_tokens_document E m kvs Hf). cbv zeta.
  destruct (truthy (Json.get kvs "refresh_token")) eqn:Hrt; cbn [negb].
  2:{ eexists false, _, _, [_]. by split. }
  destruct (eq_str (Json.get kvs "refresh_token") placeholder) eqn:Hph.
  { eexists false, _, _, [_]. by split. }
  destruct (truthy (Json.get kvs "timestamp")).
  2:{ eexists true, _, _, [_]. split; [reflexivity|]. intros _.
      repeat split; try done. by exists kvs. }
  destruct (if is_number _ then _ else _) as [age|].
  2:{ eexists false, _, _, [_]. by split. }
  destruct (180 <? age).
  - eexists true, _, _, [_; _]. split; [reflexivity|]. intros _.
    repeat split; try done. by exists kvs.
  - eexists true, _, _, [_]. split; [reflexivity|]. intros _.
    repeat split; try done. by exists kvs.
Qed.

(** X5: [load_tokens] never raises and only reads: whatever the file
    holds, it returns a boolean, prints messages and does nothing else;
    the files, standard input, the base URL, the file name and the expiry
    of the object are as before. *)
Theorem load_tokens_is_read_only (E : Env) (m : machine) :
  let r := load_tokens E m in
  (exists b : bool, fst r = Return b) /\
  (exists msgs : list message, events_since m (snd r) = map Print msgs) /\
  fs (snd r) = fs m /\
  stdin (snd r) = stdin m /\
  base_url (self (snd r)) = base_url (self m) /\
  token_file (self (snd r)) = token_file (self m) /\
  token_expires_at (self (snd r)) = token_expires_at (self m).
Proof.
  intros r. subst r.
  destruct (load_tokens_shape E m) as (b & rt & at_ & msgs & -> & _).
  cbn [fst snd]. split; [by exists b|]. split; [|done].
  exists msgs. by apply events_since_after.
Qed.

(** ** More on [save_tokens] *)

(** X6: [save_tokens] replaces the token file and touches no other path or
    the object.  When the write succeeds the record holds exactly the keys
    [refresh_token], [timestamp], [created_at], then [access_token] and
    [expires_at] for the truthy arguments, in this order: nothing the file
    held before survives.  When the file cannot be opened the files are as
    before. *)
Theorem save_tokens_replaces_only_token_file
    (E : Env) (m : machine) (refresh access expires : json) :
  let m' := snd (save_tokens E refresh access expires m) in
  let path := token_file (self m) in
  self m' = self m /\
  (forall p : string, p <> path -> fs m' !! p = fs m !! p) /\
  match open_write E path with
  | WriteOk =>
      exists kvs : list (string * json),
        fs m' !! path = Some (Document (JObj kvs)) /\
        map fst kvs =
          (["refresh_token"; "timestamp"; "created_at"]
             ++ (if truthy access then ["access_token"] else [])
             ++ (if truthy expires then ["expires_at"] else []))%list
  | OpenFails => fs m' = fs m
  | DumpFails => fs m' !! path = Some Malformed
  end.
Proof.
  intros m' path. subst m' path. rewrite save_tokens_run. cbn [snd].
  unfold saved.
  destruct (open_write E (token_file (self m))); cbn [self fs after].
  - split; [done|]. split; [intros p Hp; by apply lookup_insert_ne|].
    eexists. split; [apply lookup_insert_eq|].
    unfold token_data_of. by destruct (truthy access), (truthy expires).
  - by repeat split.
  - split; [done|]. split; [intros p Hp; by apply lookup_insert_ne|].
    apply lookup_insert_eq.
Qed.

(** X7: what comes back after a save whose write succeeded.  The
    [load_tokens] that follows finds the refresh token as it was saved and
    the access token as it was saved when it was truthy, [None] otherwise;
    the rest of the object is untouched.  It returns [True] when the
    refresh token is truthy and not the placeholder and the age of the
    fresh timestamp can be computed. *)
Theorem save_then_load_restores_tokens
    (E : Env) (m : machine) (refresh access expires : json) (age : Z) :
  open_write E (token_file (self m)) = WriteOk ->
  truthy refresh = true ->
  eq_str refresh placeholder = false ->
  time_ms E <> 0 ->
  token_age_days E (JInt (time_ms E)) = Some age ->
  let m1 := snd (save_tokens E refresh access expires m) in
  fst (load_tokens E m1) = Return true /\
  self (snd (load_tokens E m1)) =
    loaded (self m) refresh (if truthy access then access else JNull).
Proof.
  intros Hw Hrt Hph Hclock Hage m1.
  assert (fs m1 !! token_file (self m1) =
            Some (Document (JObj (token_data_of E refresh access expires))))
    as Hf.
  { subst m1. rewrite save_tokens_run. unfold saved. rewrite Hw. simpl.
    apply lookup_insert_eq. }
  assert (self m1 = self m) as Hself.
  { subst m1. rewrite save_tokens_run. unfold saved. by rewrite Hw. }
  destruct (token_data_of_keys E refresh access expires)
    as (Hr & Hts & Hat & _).
  rewrite (load_tokens_document E m1 _ Hf). cbv zeta.
  rewrite Hr, Hts, Hat, Hrt, Hph, Hself. cbn [negb is_number truthy].
  destruct (time_ms E =? 0) eqn:Hz; [lia|]. cbn [negb].
  rewrite Hage. by destruct (180 <? age).
Qed.

Lemma save_then_load_restores_tokens_witness :
  let m1 := snd (save_tokens Sample.quiet (JStr "rt123") (JStr "") JNull
                   (Sample.start ∅)) in
  fst (load_tokens Sample.quiet m1) = Return true /\
  self (snd (load_tokens Sample.quiet m1)) =
    loaded (new_helper Sample.url Sample.file) (JStr "rt123") JNull.
Proof.
  apply (save_then_load_restores_tokens Sample.quiet (Sample.start ∅)
           (JStr "rt123") (JStr "") JNull 3);
    vm_compute; (reflexivity || discriminate).
Defined.

(** X8: a write that fails after the file was opened leaves a file that
    the next [load_tokens] cannot read: it returns [False] with the
    loading error, even though a good record may have been there before
    the save. *)
Theorem failed_dump_makes_load_fail
    (E : Env) (m : machine) (refresh access expires : json) :
  open_write E (token_file (self m)) = DumpFails ->
  let m1 := snd (save_tokens E refresh access expires m) in
  load_tokens E m1 = (Return false, after m1 [Print MsgErrorLoading]).
Proof.
  intros Hw m1.
  assert (fs m1 !! token_file (self m1) = Some Malformed) as Hf.
  { subst m1. rewrite save_tokens_run. unfold saved. rewrite Hw. simpl.
    apply lookup_insert_eq. }
  rewrite load_tokens_without_json_object by (intros kvs; by rewrite Hf).
  by rewrite Hf.
Qed.

Lemma failed_dump_makes_load_fail_witness :
  let E := Sample.env Sample.token_only Sample.agents DumpFails in
  let m := Sample.start (Sample.record [("refresh_token", JStr "rt123")]) in
  let m1 := snd (save_tokens E (JStr "rt123") (JStr "AT1")
                   (JInt 1700003600) m) in
  fst (load_tokens E m) = Return true /\
  load_tokens E m1 = (Return false, after m1 [Print MsgErrorLoading]).
Proof.
  intros E m m1. split; [vm_compute; reflexivity|].
  apply (failed_dump_makes_load_fail E m (JStr "rt123") (JStr "AT1")
           (JInt 1700003600)).
  reflexivity.
Defined.

(** ** [create_example_token_file] *)

Lemma create_example_token_file_run (E : Env) (m : machine) :
  create_example_token_file E m =
    (Return tt,
     let path := token_file (self m) in
     match open_write E path with
     | WriteOk =>
         {| self := self m;
            fs := <[path :=
                     Document
                       (JObj [("refresh_token", JStr placeholder);
                              ("timestamp", JInt (time_ms E));
                              ("created_at", JStr (now_iso E));
                              ("_instructions", example_instructions)])]>
                    (fs m);
            stdin := stdin m;
            trace := trace m ++
              [FileWrite path; Print (MsgExampleCreated path);
               Print MsgUpdateWithRealToken] |}
     | OpenFails => after m [FileWrite path; Print MsgErrorCreating]
     | DumpFails =>
         {| self := self m;
            fs := <[path := Malformed]> (fs m);
            stdin := stdin m;
            trace := trace m ++ [FileWrite path; Print MsgErrorCreating] |}
     end).
Proof.
  unfold create_example_token_file, json_dump, after. unfold_monad. run.
  destruct (open_write E (token_file (self m))); run;
    rewrite <- ?app_assoc; reflexivity.
Qed.

(** X9: the example file is never usable as it is.  After a
    [create_example_token_file] whose write succeeded, [load_tokens]
    returns [False] and asks for the refresh token to be updated; the
    object now holds the placeholder as refresh token and no access token,
    whatever it held before, and whatever record was in the file is
    gone. *)
Theorem create_example_then_load_is_rejected (E : Env) (m : machine) :
  open_write E (token_file (self m)) = WriteOk ->
  let m1 := snd (create_example_token_file E m) in
  fst (create_example_token_file E m) = Return tt /\
  load_tokens E m1 =
    (Return false,
     after (with_self m1 (loaded (self m) (JStr placeholder) JNull))
       [Print MsgUpdateRefreshToken]).
Proof.
  intros Hw m1. subst m1. rewrite create_example_token_file_run.
  cbn [fst snd]. split; [done|]. cbv zeta. rewrite Hw.
  erewrite load_tokens_rejects;
    [|simpl; apply lookup_insert_eq|right; reflexivity].
  reflexivity.
Qed.

Lemma create_example_then_load_is_rejected_witness :
  let m := with_self
             (Sample.start (Sample.record [("refresh_token", JStr "real")]))
             (loaded (new_helper Sample.url Sample.file)
                (JStr "real") (JStr "AT0")) in
  let m1 := snd (create_example_token_file Sample.quiet m) in
  fst (create_example_token_file Sample.quiet m) = Return tt /\
  load_tokens Sample.quiet m1 =
    (Return false,
     after (with_self m1 (loaded (self m) (JStr placeholder) JNull))
       [Print MsgUpdateRefreshToken]).
Proof.
  intros m.
  apply (create_example_then_load_is_rejected Sample.quiet m).
  reflexivity.
Defined.

(** ** More on [authenticate] *)

Lemma requests_post_run (E : Env) (m : machine) (url : string) (v : json) :
  requests_post E url v m =
    (net_outcome (http_post E url v), after m [HttpPost url v]).
Proof.
  unfold requests_post, of_net_result. unfold_monad.
  by destruct (http_post E url v).
Qed.

Lemma requests_get_run (E : Env) (m : machine) (url : string) (v : json) :
  requests_get E url v m =
    (net_outcome (http_get E url v), after m [HttpGet url v]).
Proof.
  unfold requests_get, of_net_result. unfold_monad.
  by destruct (http_get E url v).
Qed.

Ltac tidy_trace :=
  unfold posted, after, with_self, holding, loaded; simpl;
  rewrite <- ?app_assoc; reflexivity.

(** [authenticate] with a truthy refresh token, end by end. *)
Lemma authenticate_run (E : Env) (m : machine) :
  truthy (refresh_token (self m)) = true ->
  authenticate E m =
    match http_post E (auth_url m) (refresh_token (self m)) with
    | NetTimeout => (Return false, after (posted m) [Print MsgRequestTimeout])
    | NetConnectionError =>
        (Return false, after (posted m) [Print MsgConnectionError])
    | NetOtherError =>
        (Return false, after (posted m) [Print MsgAuthenticationError])
    | NetResponse r =>
        if is_http_error (status_code r) then
          (Return false,
           after (posted m)
             [Print MsgHttpError; Print (MsgStatus (status_code r));
              Print (MsgResponse (text r))])
        else
          match body_json r with
          | Some (JObj kvs) =>
              let token := Json.get kvs "token" in
              let expire_at := Json.get kvs "expire_at" in
              if truthy token then
                let m1 :=
                  with_self (posted m)
                    (holding (self m) token (adopted_expiry E expire_at)) in
                if expiry_accepted E expire_at then
                  match slice_prefix 20 token with
                  | Some prefix =>
                      (Return true,
                       saved E
                         (after m1
                            [Print MsgAuthSuccessful;
                             Print (MsgAccessTokenPrefix prefix);
                             Print (if truthy expire_at
                                    then MsgExpires expire_at
                                    else MsgExpiresInOneHour)])
                         (JObj (token_data_of E (refresh_token (self m))
                                  token (adopted_expiry E expire_at))))
                  | None =>
                      (Return false,
                       after m1 [Print MsgAuthSuccessful;
                                 Print MsgAuthenticationError])
                  end
                else (Return false, after m1 [Print MsgAuthenticationError])
              else
                (Return false,
                 after (with_self (posted m)
                          (holding (self m) token (token_expires_at (self m))))
                   [Print MsgNoAccessTokenReceived])
          | _ => (Return false, after (posted m) [Print MsgAuthenticationError])
          end
    end.
Proof.
  intros Hrt. unfold auth_url.
  unfold authenticate, raise_for_status, report_success, fromtimestamp.
  unfold_attrs. unfold_monad. run. rewrite Hrt. run.
  rewrite requests_post_run. run.
  destruct (http_post E _ _) as [| | |r]; run; try tidy_trace.
  destruct (is_http_error (status_code r)); run; try tidy_trace.
  destruct (body_json r) as [[| | | | | |kvs]|]; run; try tidy_trace.
  unfold adopted_expiry, expiry_accepted.
  destruct (truthy (Json.get kvs "token")); run; try tidy_trace.
  destruct (truthy (Json.get kvs "expire_at")); run.
  - destruct (is_number _ && fromtimestamp_ok E _); run; try tidy_trace.
    destruct (slice_prefix 20 _); run; try tidy_trace.
    rewrite save_tokens_run. unfold saved. run.
    destruct (open_write E _); tidy_trace.
  - destruct (slice_prefix 20 _); run; try tidy_trace.
    rewrite save_tokens_run. unfold saved. run.
    destruct (open_write E _); tidy_trace.
Qed.

(** Every end of [authenticate]: a boolean; an object that differs at most
    in the access token and the expiry; one request if there is a refresh
    token; a write exactly when the result is [True]. *)
Lemma authenticate_shape (E : Env) (m : machine) :
  exists (b : bool) (token expiry : json) (files : gmap string node)
         (evs : list event),
    authenticate E m =
      (Return b,
       {| self := holding (self m) token expiry; fs := files;
          stdin := stdin m; trace := (trace m ++ evs)%list |}) /\
    requests evs =
      (if truthy (refresh_token (self m))
       then [HttpPost (auth_url m) (refresh_token (self m))] else []) /\
    (forall p : string, p <> token_file (self m) -> files !! p = fs m !! p) /\
    (b = false -> files = fs m /\ writes evs = []) /\
    (b = true ->
     truthy (refresh_token (self m)) = true /\
     truthy token = true /\
     writes evs = [FileWrite (token_file (self m))]).
Proof.
  destruct (truthy (refresh_token (self m))) eqn:Hrt.
  2:{ exists false, (access_token (self m)), (token_expires_at (self m)),
        (fs m), [Print MsgNoRefreshTokenAvailable].
      split; [|by repeat split].
      unfold authenticate. unfold_monad. run. rewrite Hrt.
      by destruct m as [[]]. }
  rewrite (authenticate_run E m Hrt).
  destruct m as [[url file rt at_ ex] files lines tr].
  unfold posted, auth_url, saved, after, with_self, holding. cbn.
  repeat case_match;
    try (eexists false, _, _, _, _;
         (split; [rewrite <- ?app_assoc; reflexivity|]);
         by repeat split).
  all: eexists true, _, _, _, _;
       (split; [rewrite <- ?app_assoc; reflexivity|]);
       repeat split; try done;
       intros; by apply lookup_insert_ne.
Qed.

(** X10: [authenticate] sends exactly one request when the object has a
    truthy refresh token, a [POST] to the base URL followed by
    [/v1/auth/token] that carries this refresh token, and none when it has
    not; the placeholder is a refresh token like any other here. *)
Theorem authenticate_posts_refresh_token_once (E : Env) (m : machine) :
  exists evs : list event,
    trace (snd (authenticate E m)) = (trace m ++ evs)%list /\
    requests evs =
      (if truthy (refresh_token (self m))
       then [HttpPost (base_url (self m) +:+ "/v1/auth/token")
               (refresh_token (self m))]
       else []).
Proof.
  destruct (authenticate_shape E m)
    as (b & token & expiry & files & evs & -> & Hreq & _).
  exists evs. by split.
Qed.

(** X11: [load_tokens] turns the placeholder down but leaves it in the
    object, and [authenticate] does not look for it: called after such a
    load, whose [False] the caller ignores, it posts the placeholder to the
    server. *)
Theorem authenticate_after_rejected_load_posts_placeholder
    (E : Env) (m : machine) (kvs : list (string * json)) :
  fs m !! token_file (self m) = Some (Document (JObj kvs)) ->
  Json.get kvs "refresh_token" = JStr placeholder ->
  let m1 := snd (load_tokens E m) in
  fst (load_tokens E m) = Return false /\
  exists evs : list event,
    trace (snd (authenticate E m1)) = (trace m1 ++ evs)%list /\
    requests evs =
      [HttpPost (base_url (self m) +:+ "/v1/auth/token") (JStr placeholder)].
Proof.
  intros Hf Hph m1. subst m1.
  rewrite (load_tokens_rejects E m kvs Hf (or_intror Hph)). cbn [fst snd].
  split; [done|].
  destruct (authenticate_shape E
              (after (with_self m (loaded (self m) (Json.get kvs "refresh_token")
                                     (Json.get kvs "access_token")))
                 [Print (rejection (Json.get kvs "refresh_token"))]))
    as (b & token & expiry & files & evs & -> & Hreq & _).
  exists evs. split; [done|]. rewrite Hreq. cbn. by rewrite Hph.
Qed.

Lemma authenticate_after_rejected_load_posts_placeholder_witness :
  let m := Sample.start (Sample.record [("refresh_token", JStr placeholder)]) in
  let m1 := snd (load_tokens Sample.quiet m) in
  fst (load_tokens Sample.quiet m) = Return false /\
  exists evs : list event,
    trace (snd (authenticate Sample.quiet m1)) = (trace m1 ++ evs)%list /\
    requests evs =
      [HttpPost (base_url (self m) +:+ "/v1/auth/token") (JStr placeholder)].
Proof.
  intros m.
  apply (authenticate_after_rejected_load_posts_placeholder Sample.quiet m
           [("refresh_token", JStr placeholder)]);
    vm_compute; reflexivity.
Defined.

(** X12: when the request ends in an exception, or the answer passes
    [raise_for_status] but its body is not a JSON object, [authenticate]
    returns [False] after one message and leaves the object and the files
    as they were: the timeout and the connection error have messages of
    their own, everything else is the general authentication error. *)
Theorem authenticate_keeps_state_on_transport_and_body_errors
    (E : Env) (m : machine) :
  truthy (refresh_token (self m)) = true ->
  let answer := http_post E (auth_url m) (refresh_token (self m)) in
  forall msg : message,
    (answer = NetTimeout /\ msg = MsgRequestTimeout) \/
    (answer = NetConnectionError /\ msg = MsgConnectionError) \/
    (answer = NetOtherError /\ msg = MsgAuthenticationError) \/
    (exists r : response,
       answer = NetResponse r /\ is_http_error (status_code r) = false /\
       (forall kvs, body_json r <> Some (JObj kvs)) /\
       msg = MsgAuthenticationError) ->
    authenticate E m = (Return false, after (posted m) [Print msg]).
Proof.
  intros Hrt answer msg Hcase. subst answer.
  rewrite (authenticate_run E m Hrt).
  destruct Hcase as [[-> ->]|[[-> ->]|[[-> ->]|(r & -> & -> & Hbody & ->)]]];
    try reflexivity.
  destruct (body_json r) as [[| | | | | |kvs]|]; try reflexivity.
  by destruct (Hbody kvs).
Qed.

Lemma authenticate_keeps_state_on_transport_and_body_errors_witness :
  let E := Sample.env (NetResponse (Response 200 "<html>" None))
             Sample.agents WriteOk in
  let m := with_self (Sample.start ∅)
             (loaded (new_helper Sample.url Sample.file)
                (JStr "rt123") (JStr "AT0")) in
  authenticate E m =
    (Return false, after (posted m) [Print MsgAuthenticationError]).
Proof.
  intros E m.
  apply (authenticate_keeps_state_on_transport_and_body_errors E m eq_refl).
  right. right. right. exists (Response 200 "<html>" None).
  repeat split. intros kvs. discriminate.
Defined.

(** X13: when the answer passes [raise_for_status] and its JSON object
    carries a string token and an [expire_at] that is a number
    [datetime.fromtimestamp] accepts, [authenticate] returns [True], the
    object holds this token and this expiry, and a successful write stores
    both, with the refresh token, in the token file. *)
Theorem authenticate_adopts_expiry_given
    (E : Env) (m : machine) (r : response) (kvs : list (string * json))
    (token : string) :
  truthy (refresh_token (self m)) = true ->
  http_post E (auth_url m) (refresh_token (self m)) = NetResponse r ->
  is_http_error (status_code r) = false ->
  body_json r = Some (JObj kvs) ->
  Json.get kvs "token" = JStr token ->
  token <> "" ->
  truthy (Json.get kvs "expire_at") = true ->
  is_number (Json.get kvs "expire_at") = true ->
  fromtimestamp_ok E (Json.get kvs "expire_at") = true ->
  let m' := snd (authenticate E m) in
  fst (authenticate E m) = Return true /\
  self m' = holding (self m) (JStr token) (Json.get kvs "expire_at") /\
  (open_write E (token_file (self m)) = WriteOk ->
   fs m' !! token_file (self m) =
     Some (Document
             (JObj [("refresh_token", refresh_token (self m));
                    ("timestamp", JInt (time_ms E));
                    ("created_at", JStr (now_iso E));
                    ("access_token", JStr token);
                    ("expires_at", Json.get kvs "expire_at")]))).
Proof.
  intros Hrt Hpost Herr Hbody Htok Hne Hexp Hnum Hok m'. subst m'.
  assert (truthy (JStr token) = true) as Htruthy.
  { simpl. destruct (String.eqb_spec token ""); [done|reflexivity]. }
  rewrite (authenticate_run E m Hrt), Hpost, Herr, Hbody. cbv zeta.
  unfold expiry_accepted, adopted_expiry.
  rewrite Htok, Htruthy, Hexp, Hnum, Hok. cbn [negb orb andb slice_prefix].
  cbn [fst snd]. split; [done|]. unfold saved.
  cbn [self after with_self token_file holding].
  split; [by destruct (open_write E _)|].
  intros Hw. rewrite Hw. cbn [fs]. rewrite lookup_insert_eq.
  unfold token_data_of. by rewrite Htruthy, Hexp.
Qed.

Lemma authenticate_adopts_expiry_given_witness :
  let kvs := [("token", JStr "AT1"); ("expire_at", JInt 1700009999)] in
  let E := Sample.env (Sample.ok (JObj kvs)) Sample.agents WriteOk in
  let m := with_self (Sample.start ∅)
             (loaded (new_helper Sample.url Sample.file) (JStr "rt123") JNull) in
  fst (authenticate E m) = Return true /\
  self (snd (authenticate E m)) =
    holding (self m) (JStr "AT1") (JInt 1700009999).
Proof.
  intros kvs E m.
  assert ("AT1" <> "") as Hne by discriminate.
  pose proof (authenticate_adopts_expiry_given E m
                (Response 200 "" (Some (JObj kvs))) kvs "AT1"
                eq_refl eq_refl eq_refl eq_refl eq_refl Hne
                eq_refl eq_refl eq_refl) as (Hret & Hself & _).
  split; [exact Hret | exact Hself].
Defined.

(** X14: an answer that passes [raise_for_status] with a JSON object but no
    truthy token makes [authenticate] return [False], yet the access token
    of the object has already been overwritten by what the answer gave
    ([None] when the key is missing): an access token held before is lost
    in memory, while the files, and the expiry, are as before. *)
Theorem authenticate_without_token_drops_access_token
    (E : Env) (m : machine) (r : response) (kvs : list (string * json)) :
  truthy (refresh_token (self m)) = true ->
  http_post E (auth_url m) (refresh_token (self m)) = NetResponse r ->
  is_http_error (status_code r) = false ->
  body_json r = Some (JObj kvs) ->
  truthy (Json.get kvs "token") = false ->
  authenticate E m =
    (Return false,
     after (with_self (posted m)
              (holding (self m) (Json.get kvs "token")
                 (token_expires_at (self m))))
       [Print MsgNoAccessTokenReceived]).
Proof.
  intros Hrt Hpost Herr Hbody Htok.
  rewrite (authenticate_run E m Hrt), Hpost, Herr, Hbody. cbv zeta.
  by rewrite Htok.
Qed.

Lemma authenticate_without_token_drops_access_token_witness :
  let E := Sample.env (Sample.ok (JObj [("message", JStr "ok")]))
             Sample.agents WriteOk in
  let m := with_self (Sample.start ∅)
             (loaded (new_helper Sample.url Sample.file)
                (JStr "rt123") (JStr "AT0")) in
  access_token (self m) = JStr "AT0" /\
  access_token (self (snd (authenticate E m))) = JNull.
Proof.
  intros E m. split; [reflexivity|].
  rewrite (authenticate_without_token_drops_access_token E m
             (Response 200 "" (Some (JObj [("message", JStr "ok")])))
             [("message", JStr "ok")]
             eq_refl eq_refl eq_refl eq_refl eq_refl).
  reflexivity.
Defined.

(** X15: [authenticate] can fail after it has taken the new tokens.  When
    the answer carries a truthy token but its [expire_at] is truthy and not
    a timestamp [datetime.fromtimestamp] accepts, or the token is neither a
    string nor a list so that its first 20 characters cannot be printed,
    the call returns [False] with the object already holding the new token
    and expiry, and nothing is written: memory and file disagree. *)
Theorem authenticate_fails_after_taking_tokens
    (E : Env) (m : machine) (r : response) (kvs : list (string * json)) :
  truthy (refresh_token (self m)) = true ->
  http_post E (auth_url m) (refresh_token (self m)) = NetResponse r ->
  is_http_error (status_code r) = false ->
  body_json r = Some (JObj kvs) ->
  truthy (Json.get kvs "token") = true ->
  expiry_accepted E (Json.get kvs "expire_at") = false \/
    slice_prefix 20 (Json.get kvs "token") = None ->
  let m' := snd (authenticate E m) in
  fst (authenticate E m) = Return false /\
  self m' =
    holding (self m) (Json.get kvs "token")
      (adopted_expiry E (Json.get kvs "expire_at")) /\
  fs m' = fs m.
Proof.
  intros Hrt Hpost Herr Hbody Htok Hcase m'. subst m'.
  rewrite (authenticate_run E m Hrt), Hpost, Herr, Hbody. cbv zeta.
  rewrite Htok.
  destruct (expiry_accepted E _) eqn:Hacc.
  - destruct Hcase as [?|Hslice]; [done|]. by rewrite Hslice.
  - done.
Qed.

Lemma authenticate_fails_after_taking_tokens_witness :
  let kvs := [("token", JStr "AT1"); ("expire_at", JStr "2030-01-01")] in
  let E := Sample.env (Sample.ok (JObj kvs)) Sample.agents WriteOk in
  let m := with_self (Sample.start ∅)
             (loaded (new_helper Sample.url Sample.file) (JStr "rt123") JNull) in
  fst (authenticate E m) = Return false /\
  self (snd (authenticate E m)) =
    holding (self m) (JStr "AT1") (JStr "2030-01-01") /\
  fs (snd (authenticate E m)) = fs m.
Proof.
  intros kvs E m.
  apply (authenticate_fails_after_taking_tokens E m
           (Response 200 "" (Some (JObj kvs))) kvs
           eq_refl eq_refl eq_refl eq_refl eq_refl).
  left. reflexivity.
Defined.

(** X16: [authenticate] never raises and never touches the base URL, the
    file name, the refresh token, standard input or any file other than
    the token file.  It returns [True] exactly when it went on to save:
    then the access token in the object is truthy and the token file was
    written once; when it returns [False] no file was written and the
    files are as before. *)
Theorem authenticate_saves_exactly_when_true (E : Env) (m : machine) :
  exists (b : bool) (evs : list event),
    let m' := snd (authenticate E m) in
    fst (authenticate E m) = Return b /\
    trace m' = (trace m ++ evs)%list /\
    base_url (self m') = base_url (self m) /\
    token_file (self m') = token_file (self m) /\
    refresh_token (self m') = refresh_token (self m) /\
    stdin m' = stdin m /\
    (forall p : string, p <> token_file (self m) -> fs m' !! p = fs m !! p) /\
    (b = false -> fs m' = fs m /\ writes evs = []) /\
    (b = true ->
     truthy (access_token (self m')) = true /\
     writes evs = [FileWrite (token_file (self m))]).
Proof.
  destruct (authenticate_shape E m)
    as (b & token & expiry & files & evs & -> & _ & Hother & Hfalse & Htrue).
  exists b, evs. cbn [fst snd self fs stdin trace holding base_url token_file
                      refresh_token access_token].
  repeat split; try done.
  - by apply Hfalse.
  - by apply Hfalse.
  - by apply Htrue.
  - by apply Htrue.
Qed.

(** X17: whether the save inside [authenticate] succeeds does not show in
    its result: in two worlds that differ only in what happens to writes
    and [chmod], [authenticate] returns the same boolean and leaves the
    same object. *)
Theorem authenticate_result_ignores_write_outcome
    (E : Env) (m : machine) (w : string -> write_outcome)
    (c : string -> bool) :
  fst (authenticate (with_writes E w c) m) = fst (authenticate E m) /\
  self (snd (authenticate (with_writes E w c) m)) =
    self (snd (authenticate E m)).
Proof.
  destruct (truthy (refresh_token (self m))) eqn:Hrt.
  2:{ unfold authenticate. unfold_monad. run. by rewrite Hrt. }
  rewrite (authenticate_run E m Hrt), (authenticate_run _ m Hrt).
  cbn [with_writes http_post].
  destruct (http_post E _ _) as [| | |r]; try done.
  destruct (is_http_error _); try done.
  destruct (body_json r) as [[| | | | | |kvs]|]; try done.
  cbv zeta. unfold expiry_accepted, adopted_expiry, time_s.
  cbn [with_writes fromtimestamp_ok clock_ms].
  destruct (truthy (Json.get kvs "token")); [|done].
  destruct (negb _ || _); [|done].
  destruct (slice_prefix 20 _); [|done].
  unfold saved. cbn [fst snd with_writes open_write chmod_ok].
  by destruct (w _), (open_write E _).
Qed.

(** ** More on [test_api_connection] *)

(** [test_api_connection] with a truthy access token, end by end. *)
Lemma test_api_connection_run (E : Env) (m : machine) :
  truthy (access_token (self m)) = true ->
  test_api_connection E m =
    match http_get E (agents_url m) (access_token (self m)) with
    | NetResponse r =>
        if is_http_error (status_code r) then
          (Return false,
           after (probed m)
             (Print (MsgApiTestFailed (status_code r))
                :: status_hint (status_code r)))
        else
          match body_json r with
          | Some (JObj kvs) =>
              match len (get_default kvs "data" (JList [])) with
              | Some n =>
                  (Return true,
                   after (probed m)
                     [Print MsgApiTestSuccessful; Print (MsgFoundAgents n)])
              | None => (Return false, after (probed m) [Print MsgApiTestError])
              end
          | _ => (Return false, after (probed m) [Print MsgApiTestError])
          end
    | _ => (Return false, after (probed m) [Print MsgApiTestError])
    end.
Proof.
  intros Hat. unfold agents_url, probed, status_hint.
  unfold test_api_connection, raise_for_status.
  unfold_attrs. unfold_monad. run. rewrite Hat. run.
  rewrite requests_get_run. run.
  destruct (http_get E _ _) as [| | |r]; run;
    try (unfold after; simpl; rewrite <- ?app_assoc; reflexivity).
  destruct (is_http_error (status_code r)); run.
  { destruct (status_code r =? 401); [|destruct (status_code r =? 403)]; run;
      unfold after; simpl; rewrite <- ?app_assoc; reflexivity. }
  destruct (body_json r) as [[| | | | | |kvs]|]; run;
    try (unfold after; simpl; rewrite <- ?app_assoc; reflexivity).
  destruct (len _); run;
    unfold after; simpl; rewrite <- ?app_assoc; reflexivity.
Qed.



(** X19: on a status code from 400 to 599 [test_api_connection] returns
    [False] and reports the code; it adds the expired-token hint for 401
    and the permissions hint for 403, and no hint for any other code. *)
Theorem test_api_connection_reports_http_errors
    (E : Env) (m : machine) (r : response) :
  truthy (access_token (self m)) = true ->
  http_get E (agents_url m) (access_token (self m)) = NetResponse r ->
  400 <= status_code r < 600 ->
  let failed hint :=
    (Return false,
     after (probed m) (Print (MsgApiTestFailed (status_code r)) :: hint)) in
  (status_code r = 401 ->
   test_api_connection E m = failed [Print MsgTokenMayBeExpired]) /\
  (status_code r = 403 ->
   test_api_connection E m = failed [Print MsgInsufficientPermissions]) /\
  (status_code r <> 401 -> status_code r <> 403 ->
   test_api_connection E m = failed []).
Proof.
  intros Hat Hget Hcode failed. subst failed.
  rewrite (test_api_connection_run E m Hat), Hget.
  replace (is_http_error (status_code r)) with true
    by (unfold is_http_error; lia).
  unfold status_hint. repeat split.
  - by intros ->.
  - by intros ->.
  - intros H401 H403.
    destruct (status_code r =? 401) eqn:H1; [lia|].
    destruct (status_code r =? 403) eqn:H3; [lia|]. done.
Qed.

Lemma test_api_connection_reports_http_errors_witness :
  let r := Response 403 "forbidden" None in
  let E := Sample.env Sample.token_only (NetResponse r) WriteOk in
  let m := with_self (Sample.start ∅)
             (loaded (new_helper Sample.url Sample.file)
                (JStr "rt123") (JStr "AT1")) in
  test_api_connection E m =
    (Return false,
     after (probed m)
       [Print (MsgApiTestFailed 403); Print MsgInsufficientPermissions]).
Proof.
  intros r E m.
  assert (400 <= status_code r < 600) as Hcode by (subst r; simpl; lia).
  pose proof (test_api_connection_reports_http_errors E m r
                eq_refl eq_refl Hcode) as (_ & H403 & _).
  apply H403. reflexivity.
Defined.

(** Every end of [test_api_connection]. *)
Lemma test_api_connection_shape (E : Env) (m : machine) :
  exists (b : bool) (evs : list event),
    test_api_connection E m = (Return b, after m evs) /\
    requests evs =
      (if truthy (access_token (self m))
       then [HttpGet (agents_url m) (access_token (self m))] else []) /\
    writes evs = [].
Proof.
  destruct (truthy (access_token (self m))) eqn:Hat.
  2:{ exists false, [Print MsgNoAccessTokenForTesting]. split; [|done].
      unfold test_api_connection. unfold_monad. run. by rewrite Hat. }
  rewrite (test_api_connection_run E m Hat).
  unfold probed, status_hint.
  repeat case_match;
    eexists _, _; (split; [rewrite after_after; reflexivity|]); done.
Qed.

(** X20: the probe only looks.  [test_api_connection] never raises and
    changes neither the object nor the files nor standard input, so a
    failed probe leaves the access token in place; it sends one [GET] to
    the base URL followed by [/v1/agents], carrying the access token, when
    the object has a truthy one, and nothing otherwise.  A timeout or a
    connection error gets no message of its own. *)
Theorem test_api_connection_only_looks (E : Env) (m : machine) :
  (exists (b : bool) (evs : list event),
     test_api_connection E m = (Return b, after m evs) /\
     requests evs =
       (if truthy (access_token (self m))
        then [HttpGet (base_url (self m) +:+ "/v1/agents")
                (access_token (self m))]
        else []) /\
     writes evs = []) /\
  (truthy (access_token (self m)) = true ->
   http_get E (agents_url m) (access_token (self m)) = NetTimeout \/
   http_get E (agents_url m) (access_token (self m)) = NetConnectionError ->
   test_api_connection E m =
     (Return false, after (probed m) [Print MsgApiTestError])).
Proof.
  split; [apply test_api_connection_shape|].
  intros Hat Hnet. rewrite (test_api_connection_run E m Hat).
  by destruct Hnet as [-> | ->].
Qed.

(** ** More on [get_token_status] *)

Lemma get_token_status_run (E : Env) (m : machine) :
  get_token_status E m =
    match access_report (self m) (time_s E) with
    | Some line => (Return tt, after m (status_report (self m) line))
    | None => (Raise Exception, after m (map Print (status_preamble (self m))))
    end.
Proof.
  unfold get_token_status, report_access_token, access_report, status_report,
    status_preamble, refresh_line.
  unfold_monad. run.
  destruct (truthy (refresh_token (self m)));
    [destruct (eq_str _ placeholder)|];
    (destruct (truthy (access_token (self m))); run;
     [destruct (token_expires_at (self m)) as [|b|z|f| | |]; run;
      try destruct (time_s E <? _); try destruct (float_gt_int _ _);
      try destruct (time_s E <? z); run|]);
    unfold after; simpl; rewrite <- ?app_assoc; reflexivity.
Qed.


(** ** [interactive_setup] *)

Lemma input_line (p : prompt) (m : machine) (line : string) (rest : list string) :
  stdin m = line :: rest ->
  input p m =
    (Return line,
     {| self := self m; fs := fs m; stdin := rest;
        trace := trace m ++ [Prompt p] |}).
Proof. intros H. unfold input, read_line. unfold_monad. cbn. by rewrite H. Qed.

Lemma input_eof (p : prompt) (m : machine) :
  stdin m = [] -> input p m = (Raise Exception, after m [Prompt p]).
Proof.
  intros H. unfold input, read_line, after. unfold_monad. cbn. rewrite H.
  reflexivity.
Qed.

Ltac run_wizard :=
  cbn -[Json.get truthy eq_str find_key String.append Z.add Z.quot Z.ltb
        Z.sub Z.div Z.eqb insert lookup input
        Str.strip Str.rstrip_slash Str.nonempty
        load_tokens save_tokens authenticate test_api_connection
        get_token_status create_example_token_file time_s time_ms].

(** The wizard once its two questions have been answered. *)
Lemma interactive_setup_answered
    (E : Env) (m : machine) (url_answer token_answer : string)
    (rest : list string) :
  stdin m = url_answer :: token_answer :: rest ->
  interactive_setup E m =
    if Str.nonempty (Str.strip token_answer) then
      let (o, m1) := authenticate E (wizard_ready m url_answer token_answer rest) in
      match o with
      | Return true =>
          let (o2, m2) := test_api_connection E (after m1 [Print MsgStep4]) in
          match o2 with
          | Return true =>
              (Return true,
               after m2 [Print MsgSetupCompleted; Print MsgThreatFlowReady])
          | Return false =>
              (Return true,
               after m2 [Print MsgAuthWorkedApiFailed;
                         Print MsgPermissionsOrNetwork])
          | Raise e => (Raise e, m2)
          end
      | Return false => (Return false, after m1 [Print MsgSetupFailed])
      | Raise e => (Raise e, m1)
      end
    else
      (Return false,
       {| self :=
            {| base_url := wizard_base_url (self m) url_answer;
               token_file := token_file (self m);
               refresh_token := refresh_token (self m);
               access_token := access_token (self m);
               token_expires_at := token_expires_at (self m) |};
          fs := fs m;
          stdin := rest;
          trace := trace m ++ wizard_questions (self m)
                     ++ [Print MsgNoTokenProvided] |}).
Proof.
  destruct m as [[url file rt at_ ex] files lines tr]. cbn [stdin].
  intros ->. unfold interactive_setup. unfold_attrs. unfold_monad.
  run_wizard.
  rewrite (input_line PromptUrl _ url_answer (token_answer :: rest))
    by reflexivity.
  run_wizard. unfold wizard_ready, wizard_base_url, wizard_questions, after.
  destruct (Str.nonempty (Str.strip url_answer)); run_wizard;
    (rewrite (input_line PromptToken _ token_answer rest) by reflexivity);
    run_wizard;
    (destruct (Str.nonempty (Str.strip token_answer)); run_wizard;
     [|rewrite <- ?app_assoc; reflexivity]);
    rewrite <- ?app_assoc; cbn [app];
    (destruct (authenticate E _) as [[[|]|e] m1]; run_wizard; [|done..]);
    (destruct (test_api_connection E _) as [[[|]|e] m2]; run_wizard;
     rewrite <- ?app_assoc; reflexivity).
Qed.


Lemma requests_app (evs evs' : list event) :
  requests (evs ++ evs') = (requests evs ++ requests evs')%list.
Proof. apply List.filter_app. Qed.

Lemma requests_prints (msgs : list message) : requests (map Print msgs) = [].
Proof. induction msgs as [|msg msgs IH]; [done|exact IH]. Qed.

(** [test_api_connection] depends on the object and the world only: the
    boolean and the events are the same over any files, input and
    trace. *)
Lemma test_api_connection_uniform (E : Env) (h : PicusTokenHelper) :
  exists (b : bool) (evs : list event),
    requests evs =
      (if truthy (access_token h)
       then [HttpGet (base_url h +:+ "/v1/agents") (access_token h)] else []) /\
    forall (files : gmap string node) (lines : list string) (tr : list event),
      test_api_connection E (Machine h files lines tr) =
        (Return b, Machine h files lines (tr ++ evs)).
Proof.
  destruct (truthy (access_token h)) eqn:Hat.
  2:{ exists false, [Print MsgNoAccessTokenForTesting]. split; [done|].
      intros files lines tr.
      unfold test_api_connection. unfold_monad. run. by rewrite Hat. }
  assert (forall files lines tr,
            test_api_connection E (Machine h files lines tr) = _) as Hrun
    by (intros files lines tr;
        exact (test_api_connection_run E (Machine h files lines tr) Hat)).
  unfold probed, agents_url, status_hint, after in Hrun. cbn in Hrun.
  destruct (http_get E (base_url h +:+ "/v1/agents") (access_token h))
    as [| | |r].
  1-3: eexists _, _; split;
       [|intros files lines tr; rewrite Hrun, <- ?app_assoc; reflexivity];
       done.
  destruct (is_http_error (status_code r)).
  { destruct (status_code r =? 401); [|destruct (status_code r =? 403)];
      (eexists _, _; split;
       [|intros files lines tr; rewrite Hrun, <- ?app_assoc; reflexivity]);
      done. }
  destruct (body_json r) as [[| | | | | |kvs]|];
    try (eexists _, _; split;
         [|intros files lines tr; rewrite Hrun, <- ?app_assoc; reflexivity];
         done).
  destruct (len _);
    (eexists _, _; split;
     [|intros files lines tr; rewrite Hrun, <- ?app_assoc; reflexivity]);
    done.
Qed.

(** [authenticate] reads neither the files nor standard input: its
    boolean, the object it leaves, its events and what it does to the
    files are the same over any files, input and trace. *)
Lemma authenticate_uniform (E : Env) (h : PicusTokenHelper) :
  exists (b : bool) (token expiry : json)
         (write : gmap string node -> gmap string node) (evs : list event),
    requests evs =
      (if truthy (refresh_token h)
       then [HttpPost (base_url h +:+ "/v1/auth/token") (refresh_token h)]
       else []) /\
    (b = false -> forall files, write files = files) /\
    forall (files : gmap string node) (lines : list string) (tr : list event),
      authenticate E (Machine h files lines tr) =
        (Return b,
         Machine (holding h token expiry) (write files) lines (tr ++ evs)).
Proof.
  destruct (truthy (refresh_token h)) eqn:Hrt.
  2:{ exists false, (access_token h), (token_expires_at h), (fun f => f),
        [Print MsgNoRefreshTokenAvailable].
      split; [done|]. split; [done|]. intros files lines tr.
      unfold authenticate. unfold_monad. run. rewrite Hrt. by destruct h. }
  assert (forall files lines tr,
            authenticate E (Machine h files lines tr) = _) as Hrun
    by (intros files lines tr;
        exact (authenticate_run E (Machine h files lines tr) Hrt)).
  unfold posted, auth_url, saved, after, with_self, holding in Hrun.
  cbn in Hrun. destruct h as [url file rt at_ ex]. cbn in *.
  repeat match type of Hrun with
         | context [match ?x with _ => _ end] => destruct x
         end;
    try (eexists false, _, _, (fun f => f), _; split;
         [|split; [done|];
           intros files lines tr; rewrite Hrun, <- ?app_assoc; reflexivity];
         done).
  all: first
         [ eexists true, _, _, (fun f => f), _; split;
           [|split; [done|];
             intros files lines tr; rewrite Hrun, <- ?app_assoc; reflexivity];
           done
         | eexists true, _, _, (fun f => <[file := _]> f), _; split;
           [|split; [done|];
             intros files lines tr; rewrite Hrun, <- ?app_assoc; reflexivity];
           done ].
Qed.

(** Lines 313-314 and 322-323 never raise and, like the two calls they
    make, depend on the object and the world only. *)
Lemma authenticate_then_test_uniform (E : Env) (h : PicusTokenHelper) :
  exists (h' : PicusTokenHelper)
         (write : gmap string node -> gmap string node) (evs : list event),
    forall (files : gmap string node) (lines : list string) (tr : list event),
      authenticate_then_test E (Machine h files lines tr) =
        (Return tt, Machine h' (write files) lines (tr ++ evs)).
Proof.
  destruct (authenticate_uniform E h)
    as (b & token & expiry & write & evs & _ & _ & Hauth).
  destruct b.
  - destruct (test_api_connection_uniform E (holding h token expiry))
      as (b2 & evs2 & _ & Hprobe).
    exists (holding h token expiry), write, (evs ++ evs2)%list.
    intros files lines tr. unfold authenticate_then_test. unfold_monad.
    rewrite Hauth, Hprobe. by rewrite <- app_assoc.
  - exists (holding h token expiry), write, evs.
    intros files lines tr. unfold authenticate_then_test. unfold_monad.
    by rewrite Hauth.
Qed.





(** The wizard when standard input ends before its second answer. *)
Lemma interactive_setup_short_input (E : Env) (m : machine) :
  (length (stdin m) < 2)%nat ->
  exists evs : list event,
    fst (interactive_setup E m) = Raise Exception /\
    trace (snd (interactive_setup E m)) = (trace m ++ evs)%list /\
    requests evs = [] /\ writes evs = [] /\
    fs (snd (interactive_setup E m)) = fs m.
Proof.
  destruct m as [[url file rt at_ ex] files lines tr]. cbn [stdin].
  intros Hlen. unfold interactive_setup. unfold_attrs. unfold_monad.
  destruct lines as [|line [|line2 rest]]; [| |simpl in Hlen; lia].
  - run_wizard. rewrite input_eof by reflexivity. run_wizard.
    eexists. rewrite <- ?app_assoc. by repeat split.
  - run_wizard. rewrite (input_line PromptUrl _ line []) by reflexivity.
    run_wizard.
    destruct (Str.nonempty (Str.strip line)); run_wizard;
      (rewrite input_eof by reflexivity); run_wizard;
      eexists; rewrite <- ?app_assoc; by repeat split.
Qed.

(** The wizard never raises once it has its two answers. *)
Lemma interactive_setup_two_answers (E : Env) (m : machine)
    (url_answer token_answer : string) (rest : list string) :
  stdin m = url_answer :: token_answer :: rest ->
  exists b : bool, fst (interactive_setup E m) = Return b.
Proof.
  intros Hin.
  rewrite (interactive_setup_answered E m url_answer token_answer rest Hin).
  destruct (Str.nonempty _); [|by exists false].
  destruct (authenticate_shape E (wizard_ready m url_answer token_answer rest))
    as (b & token & expiry & files & evs & -> & _).
  destruct b; [|by exists false].
  match goal with
  | |- context [test_api_connection E ?mm] =>
      destruct (test_api_connection_shape E mm) as (b2 & evs2 & -> & _)
  end.
  exists true. by destruct b2.
Qed.

(** ** [main] *)

Lemma writes_app (evs evs' : list event) :
  writes (evs ++ evs') = (writes evs ++ writes evs')%list.
Proof. apply List.filter_app. Qed.

Lemma writes_prints (msgs : list message) : writes (map Print msgs) = [].
Proof. induction msgs as [|msg msgs IH]; [done|exact IH]. Qed.

(** [main] in the modes that load the record. *)
Lemma main_loading (E : Env) (args : arguments) (files : gmap string node)
    (lines : list string) :
  arg_create_example args = false ->
  arg_setup args = false ->
  main E args (boot files lines) =
    let (o, m1) := load_tokens E (started args files lines) in
    match o with
    | Raise e => (Raise e, m1)
    | Return false => (Return tt, after m1 [Print MsgHintCreateExample])
    | Return true =>
        if arg_status args then get_token_status E m1
        else if arg_test args then
          authenticate_then_test E (after m1 [Print MsgTestingIntegration])
        else
          let (o2, m2) := get_token_status E m1 in
          match o2 with
          | Raise e => (Raise e, m2)
          | Return _ =>
              if truthy (refresh_token (self m2))
                 && negb (eq_str (refresh_token (self m2)) placeholder)
              then authenticate_then_test E
                     (after m2 [Print MsgTestingAuthentication])
              else (Return tt, m2)
          end
    end.
Proof.
  intros Hce Hs. unfold main, init, started. unfold_monad.
  cbn -[load_tokens get_token_status authenticate_then_test truthy eq_str].
  rewrite Hce, Hs.
  destruct (load_tokens E _) as [[[|]|e] m1]; cbn [negb]; [|done..].
  destruct (arg_status args); [done|].
  destruct (arg_test args); [done|].
  destruct (get_token_status E m1) as [[[]|e] m2]; [|done].
  by destruct (truthy _ && negb _).
Qed.

(** The machine [load_tokens] leaves when [main] calls it: the object is
    new but for the two tokens, so its expiry is the 0 of the
    constructor. *)
Lemma main_load_shape (E : Env) (args : arguments)
    (files : gmap string node) (lines : list string) :
  exists (b : bool) (rt at_ : json) (msgs : list message),
    load_tokens E (started args files lines) =
      (Return b,
       Machine (holding (loaded (new_helper (arg_base_url args)
                                   (arg_token_file args)) rt JNull)
                  at_ (JInt 0))
         files lines (map Print msgs)) /\
    (b = true -> truthy rt = true /\ eq_str rt placeholder = false).
Proof.
  destruct (load_tokens_shape E (started args files lines))
    as (b & rt & at_ & msgs & Hrun & Hb).
  exists b, rt, at_, msgs. split; [exact Hrun|].
  intros Hbt. destruct (Hb Hbt) as (? & ? & _). by split.
Qed.

(** The status report over an object whose expiry is the integer 0. *)
Lemma get_token_status_new_expiry (E : Env) (h : PicusTokenHelper)
    (at_ : json) (files : gmap string node) (lines : list string)
    (tr : list event) :
  exists msgs : list message,
    get_token_status E (Machine (holding h at_ (JInt 0)) files lines tr) =
      (Return tt,
       Machine (holding h at_ (JInt 0)) files lines (tr ++ map Print msgs)).
Proof.
  rewrite get_token_status_run. unfold access_report.
  cbn [self holding access_token token_expires_at as_int].
  destruct (truthy at_); eexists [_; _; _; _; _; _; _]; reflexivity.
Qed.

(** X24: [main] ends with an uncaught exception in one situation only: in
    setup mode (without [--create-example]) when standard input ends
    before the second answer.  In every other mode, whatever the files and
    the server do, it returns. *)
Theorem main_raises_only_when_wizard_input_ends
    (E : Env) (args : arguments) (files : gmap string node)
    (lines : list string) :
  fst (main E args (boot files lines)) =
    if negb (arg_create_example args) && arg_setup args
       && (length lines <? 2)%nat
    then Raise Exception else Return tt.
Proof.
  destruct (arg_create_example args) eqn:Hce.
  { unfold main, init. unfold_monad.
    cbn -[create_example_token_file]. rewrite Hce.
    by rewrite create_example_token_file_run. }
  destruct (arg_setup args) eqn:Hs.
  { unfold main, init. unfold_monad. cbn -[interactive_setup Nat.ltb].
    rewrite Hce, Hs.
    destruct lines as [|line1 [|line2 rest]].
    1,2: match goal with
         | |- context [interactive_setup _ ?mm] =>
             destruct (interactive_setup_short_input E mm) as (evs & Hr & _);
             [simpl; lia|];
             destruct (interactive_setup E mm) as [o mm']; simpl in Hr;
             by rewrite Hr
         end.
    match goal with
    | |- context [interactive_setup E ?mm] =>
        destruct (interactive_setup_two_answers E mm line1 line2 rest eq_refl)
          as (b & Hr);
        destruct (interactive_setup E mm) as [o mm']; simpl in Hr;
        by rewrite Hr
    end. }
  rewrite (main_loading E args files lines Hce Hs). cbn [negb andb].
  destruct (main_load_shape E args files lines)
    as (b & rt & at_ & msgs & -> & Hb).
  destruct b; [|done]. destruct (Hb eq_refl) as (Hrt & Hph).
  destruct (arg_status args).
  { by destruct (get_token_status_new_expiry E
                   (loaded (new_helper (arg_base_url args)
                              (arg_token_file args)) rt JNull)
                   at_ files lines (map Print msgs)) as (msgs2 & ->). }
  destruct (arg_test args).
  { unfold after. cbn [self fs stdin trace].
    match goal with
    | |- context [authenticate_then_test E (Machine ?h _ _ _)] =>
        destruct (authenticate_then_test_uniform E h) as (h' & wr & evs & Hatt)
    end.
    by rewrite Hatt. }
  destruct (get_token_status_new_expiry E
              (loaded (new_helper (arg_base_url args) (arg_token_file args))
                 rt JNull)
              at_ files lines (map Print msgs))
    as (msgs2 & ->).
  cbn [self refresh_token holding loaded]. rewrite Hrt, Hph. cbn [negb andb].
  unfold after. cbn [self fs stdin trace].
  match goal with
  | |- context [authenticate_then_test E (Machine ?h _ _ _)] =>
      destruct (authenticate_then_test_uniform E h) as (h' & wr & evs & Hatt)
  end.
  by rewrite Hatt.
Qed.

(** X25: [--status] works offline.  Without [--create-example] and
    [--setup], a run with [--status] returns without sending a request or
    writing a file, also when [--test] is given with it; the files and
    standard input are as before. *)
Theorem main_status_is_offline
    (E : Env) (args : arguments) (files : gmap string node)
    (lines : list string) :
  arg_create_example args = false ->
  arg_setup args = false ->
  arg_status args = true ->
  let r := main E args (boot files lines) in
  fst r = Return tt /\
  requests (trace (snd r)) = [] /\
  writes (trace (snd r)) = [] /\
  fs (snd r) = files /\
  stdin (snd r) = lines.
Proof.
  intros Hce Hs Hst r. subst r.
  rewrite (main_loading E args files lines Hce Hs), Hst.
  destruct (main_load_shape E args files lines)
    as (b & rt & at_ & msgs & -> & Hb).
  destruct b.
  - destruct (get_token_status_new_expiry E
                (loaded (new_helper (arg_base_url args) (arg_token_file args))
                   rt JNull) at_ files lines (map Print msgs))
      as (msgs2 & ->).
    cbn [fst snd trace fs stdin].
    rewrite requests_app, writes_app, !requests_prints, !writes_prints.
    by repeat split.
  - unfold after. cbn [fst snd trace fs stdin].
    rewrite requests_app, writes_app, !requests_prints, !writes_prints.
    by repeat split.
Qed.

Lemma main_status_is_offline_witness :
  let args := {| arg_base_url := Sample.url; arg_token_file := Sample.file;
                 arg_setup := false; arg_test := true; arg_status := true;
                 arg_create_example := false |} in
  let r := main Sample.quiet args
             (boot (Sample.record [("refresh_token", JStr "rt123")]) []) in
  fst r = Return tt /\ requests (trace (snd r)) = [].
Proof.
  intros args.
  pose proof (main_status_is_offline Sample.quiet args
                (Sample.record [("refresh_token", JStr "rt123")]) []
                eq_refl eq_refl eq_refl) as (Hret & Hreq & _).
  split; [exact Hret | exact Hreq].
Defined.

(** X26: [--create-example] comes before every other flag and asks no
    question: the run reads no input and sends no request, loads nothing
    into the object, touches no other file, and, when the write succeeds,
    replaces the token file by the placeholder record even if it held a
    real refresh token. *)
Theorem main_create_example_comes_first
    (E : Env) (args : arguments) (files : gmap string node)
    (lines : list string) :
  arg_create_example args = true ->
  let r := main E args (boot files lines) in
  fst r = Return tt /\
  requests (trace (snd r)) = [] /\
  stdin (snd r) = lines /\
  self (snd r) = new_helper (arg_base_url args) (arg_token_file args) /\
  (forall p : string,
     p <> arg_token_file args -> fs (snd r) !! p = files !! p) /\
  (open_write E (arg_token_file args) = WriteOk ->
   fs (snd r) !! arg_token_file args =
     Some (Document
             (JObj [("refresh_token", JStr placeholder);
                    ("timestamp", JInt (time_ms E));
                    ("created_at", JStr (now_iso E));
                    ("_instructions", example_instructions)]))).
Proof.
  intros Hce r. subst r. unfold main, init. unfold_monad.
  cbn -[create_example_token_file]. rewrite Hce.
  rewrite create_example_token_file_run. cbv zeta.
  cbn [self fs stdin trace token_file new_helper fst snd].
  destruct (open_write E (arg_token_file args)); cbn [after self fs stdin trace fst snd];
    repeat split; try done;
    try (intros p Hp; by apply lookup_insert_ne).
  intros _. apply lookup_insert_eq.
Qed.

Lemma main_create_example_comes_first_witness :
  let args := {| arg_base_url := Sample.url; arg_token_file := Sample.file;
                 arg_setup := true; arg_test := true; arg_status := true;
                 arg_create_example := true |} in
  let r := main Sample.quiet args
             (boot (Sample.record [("refresh_token", JStr "real-token")]) []) in
  fst r = Return tt /\
  requests (trace (snd r)) = [] /\
  self (snd r) = new_helper Sample.url Sample.file.
Proof.
  intros args.
  pose proof (main_create_example_comes_first Sample.quiet args
                (Sample.record [("refresh_token", JStr "real-token")]) []
                eq_refl) as (Hret & Hreq & _ & Hself & _).
  split; [exact Hret|]. split; [exact Hreq | exact Hself].
Defined.

(** X27: outside setup mode nothing goes to the server unless the record
    loaded.  Without [--create-example] and [--setup], when [load_tokens]
    returns [False] on the newly built object, for a missing, unreadable
    or malformed file as for a rejected refresh token, [main] prints the
    hint and returns without any request or write. *)
Theorem main_sends_nothing_unless_loaded
    (E : Env) (args : arguments) (files : gmap string node)
    (lines : list string) :
  arg_create_example args = false ->
  arg_setup args = false ->
  fst (load_tokens E (started args files lines)) = Return false ->
  let r := main E args (boot files lines) in
  fst r = Return tt /\
  requests (trace (snd r)) = [] /\
  writes (trace (snd r)) = [] /\
  fs (snd r) = files /\
  exists msgs : list message,
    trace (snd r) = (map Print msgs ++ [Print MsgHintCreateExample])%list.
Proof.
  intros Hce Hs Hload r. subst r.
  rewrite (main_loading E args files lines Hce Hs).
  destruct (main_load_shape E args files lines)
    as (b & rt & at_ & msgs & Hrun & _).
  rewrite Hrun in *. cbn [fst] in Hload. injection Hload as ->.
  unfold after. cbn [fst snd trace fs].
  rewrite requests_app, writes_app, requests_prints, writes_prints.
  repeat split; try done. by exists msgs.
Qed.

Lemma main_sends_nothing_unless_loaded_witness :
  let r := main Sample.quiet Sample.arguments_default (boot ∅ []) in
  fst r = Return tt /\ requests (trace (snd r)) = [].
Proof.
  pose proof (main_sends_nothing_unless_loaded Sample.quiet
                Sample.arguments_default ∅ [] eq_refl eq_refl eq_refl)
    as (Hret & Hreq & _).
  split; [exact Hret | exact Hreq].
Defined.

(** X28: the default mode does what [--test] does, after printing the
    status report: for the same files, with and without [--test] (and no
    other flag), [main] sends the same requests and leaves the same object
    and the same files.  In particular the test of line 320 never holds
    the default mode back once the record has loaded. *)
Theorem main_default_does_what_test_does
    (E : Env) (url file : string) (files : gmap string node)
    (lines : list string) :
  let run test :=
    snd (main E {| arg_base_url := url; arg_token_file := file;
                   arg_setup := false; arg_test := test;
                   arg_status := false; arg_create_example := false |}
           (boot files lines)) in
  self (run false) = self (run true) /\
  fs (run false) = fs (run true) /\
  stdin (run false) = stdin (run true) /\
  requests (trace (run false)) = requests (trace (run true)).
Proof.
  intros run. subst run. cbv beta.
  rewrite !main_loading by reflexivity. cbn [arg_status arg_test].
  unfold started. cbn [arg_base_url arg_token_file].
  destruct (load_tokens_shape E
              (Machine (new_helper url file) files lines []))
    as (b & rt & at_ & msgs & -> & Hb).
  destruct b; [|done]. destruct (Hb eq_refl) as (Hrt & Hph & _).
  unfold after, with_self. cbn [self fs stdin trace].
  destruct (get_token_status_new_expiry E
              (loaded (new_helper url file) rt JNull) at_ files lines
              ([] ++ map Print msgs)) as (msgs2 & Hst).
  change (loaded (new_helper url file) rt at_)
    with (holding (loaded (new_helper url file) rt JNull) at_ (JInt 0)).
  rewrite Hst. cbn [self refresh_token holding loaded].
  rewrite Hrt, Hph. cbn [negb andb self fs stdin trace].
  destruct (authenticate_then_test_uniform E
              (holding (loaded (new_helper url file) rt JNull) at_ (JInt 0)))
    as (h' & wr & evs & Hatt).
  rewrite !Hatt. cbn [snd self fs stdin trace].
  rewrite !requests_app, !requests_prints. by repeat split.
Qed.
